(** * Mac Studio MCP server (src/app.py): a shallow embedding and its properties

    The server speaks JSON-RPC (the Model Context Protocol) on [POST /mcp] and
    turns each [tools/call] into one HTTP request to a remote command endpoint.

    The embedding follows src/app.py function by function:
    - Python values that come out of a JSON decoder are the type [json];
    - the builtins the code applies to them ([dict.get], subscripting,
      truthiness, [str()], [json.dumps], [str.replace], [abs], [<], [==])
      are total functions that return [Raise] where Python raises;
    - [call_mac] is the only effect: a computation of type [M A] reads the
      answer of the remote endpoint from an oracle and logs every request;
    - [try ... except Exception] is [catch].
    Logging ([logger.error]) is not modelled. *)

From Stdlib Require Import List String Ascii ZArith Bool Lia.
From Stdlib Require Import Floats.SpecFloat.
From Stdlib Require Import Numbers.DecimalString.
Import ListNotations.
Open Scope string_scope.
#[local] Set Warnings "-register-all".

(* ================================================================= *)
(** ** Python values decoded from JSON *)

(** A Python float, with the text [repr] gives for it.  The text is carried
    with the value: computing the shortest round-trip decimal is outside the
    program, and everything below holds for every text. *)
Record pyfloat := MkFloat { fl_val : spec_float; fl_repr : string }.

(** What [json.loads] / [response.json()] / [request.get_json()] can return.
    A [dict] keeps insertion order, so it is an association list; a lookup
    takes the first binding of the key.  A [str] is a Rocq string, one
    character per code point below 256. *)
Inductive json :=
| JNull
| JBool (b : bool)
| JInt (z : Z)
| JFloat (f : pyfloat)
| JStr (s : string)
| JList (xs : list json)
| JDict (kvs : list (string * json)).

(** [type(v).__name__], as Python's error messages print it. *)
Definition type_name (v : json) : string :=
  match v with
  | JNull => "NoneType"
  | JBool _ => "bool"
  | JInt _ => "int"
  | JFloat _ => "float"
  | JStr _ => "str"
  | JList _ => "list"
  | JDict _ => "dict"
  end.

Definition sf_is_zero (f : spec_float) : bool :=
  match f with S754_zero _ => true | _ => false end.

(** [bool(v)]: what [if v:] and [not v] test. *)
Definition truthy (v : json) : bool :=
  match v with
  | JNull => false
  | JBool b => b
  | JInt z => negb (z =? 0)%Z
  | JFloat f => negb (sf_is_zero (fl_val f))
  | JStr s => negb (s =? "")
  | JList xs => match xs with [] => false | _ => true end
  | JDict kvs => match kvs with [] => false | _ => true end
  end.

(** [v == s] for a string literal [s]: only an equal [str] is equal. *)
Definition py_eq_str (v : json) (s : string) : bool :=
  match v with
  | JStr t => t =? s
  | _ => false
  end.

(** [v == 0]: Python compares numbers across [bool], [int] and [float], so
    [False], [0], [0.0] and [-0.0] are all equal to [0]. *)
Definition py_eq_zero (v : json) : bool :=
  match v with
  | JBool b => negb b
  | JInt z => (z =? 0)%Z
  | JFloat f => sf_is_zero (fl_val f)
  | _ => false
  end.

(* ================================================================= *)
(** ** Text of values: [str], [repr], [json.dumps] *)

Definition dquote : ascii := ascii_of_nat 34.
Definition squote : ascii := ascii_of_nat 39.
Definition backslash : ascii := ascii_of_nat 92.

Definition str1 (c : ascii) : string := String c EmptyString.

Definition hex_digit (n : nat) : ascii :=
  if Nat.ltb n 10 then ascii_of_nat (48 + n) else ascii_of_nat (87 + n).

(** Two lower-case hexadecimal digits of a code point below 256. *)
Definition hex2 (c : ascii) : string :=
  let n := nat_of_ascii c in
  String (hex_digit (Nat.div n 16)) (str1 (hex_digit (Nat.modulo n 16))).

Fixpoint contains_char (c : ascii) (s : string) : bool :=
  match s with
  | EmptyString => false
  | String d s' => Ascii.eqb c d || contains_char c s'
  end.

Fixpoint concat_map (f : ascii -> string) (s : string) : string :=
  match s with
  | EmptyString => EmptyString
  | String c s' => f c ++ concat_map f s'
  end.

(** [str.isprintable] on one code point below 256. *)
Definition printable (c : ascii) : bool :=
  let n := nat_of_ascii c in
  (Nat.leb 32 n && Nat.ltb n 127) || (Nat.leb 161 n && negb (Nat.eqb n 173)).

(** One character of [repr(s)] with the quote character [q] chosen. *)
Definition repr_char (q : ascii) (c : ascii) : string :=
  if Ascii.eqb c q || Ascii.eqb c backslash then String backslash (str1 c)
  else if Ascii.eqb c (ascii_of_nat 9) then String backslash "t"
  else if Ascii.eqb c (ascii_of_nat 10) then String backslash "n"
  else if Ascii.eqb c (ascii_of_nat 13) then String backslash "r"
  else if printable c then str1 c
  else String backslash ("x" ++ hex2 c).

(** [repr(s)] of a [str]: single quotes, unless the text has a single quote
    and no double quote. *)
Definition repr_str (s : string) : string :=
  let q := if contains_char squote s && negb (contains_char dquote s)
           then dquote else squote in
  String q (concat_map (repr_char q) s) ++ str1 q.

Definition str_int (z : Z) : string := NilZero.string_of_int (Z.to_int z).

Fixpoint join (sep : string) (xs : list string) : string :=
  match xs with
  | [] => EmptyString
  | [x] => x
  | x :: rest => x ++ sep ++ join sep rest
  end.

(** [repr(v)]. *)
Fixpoint py_repr (v : json) : string :=
  match v with
  | JNull => "None"
  | JBool true => "True"
  | JBool false => "False"
  | JInt z => str_int z
  | JFloat f => fl_repr f
  | JStr s => repr_str s
  | JList xs => "[" ++ join ", " (map py_repr xs) ++ "]"
  | JDict kvs =>
      "{" ++ join ", " (map (fun kv => repr_str (fst kv) ++ ": " ++ py_repr (snd kv)) kvs) ++ "}"
  end.

(** [str(v)], which is also what an f-string field [{v}] inserts. *)
Definition py_str (v : json) : string :=
  match v with
  | JStr s => s
  | _ => py_repr v
  end.

(** One character of a JSON string literal as [json.dumps] writes it
    ([ensure_ascii] is on by default). *)
Definition dumps_char (c : ascii) : string :=
  let n := nat_of_ascii c in
  if Ascii.eqb c dquote || Ascii.eqb c backslash then String backslash (str1 c)
  else if Nat.eqb n 8 then String backslash "b"
  else if Nat.eqb n 9 then String backslash "t"
  else if Nat.eqb n 10 then String backslash "n"
  else if Nat.eqb n 12 then String backslash "f"
  else if Nat.eqb n 13 then String backslash "r"
  else if Nat.leb 32 n && Nat.leb n 126 then str1 c
  else String backslash ("u00" ++ hex2 c).

Definition dumps_str (s : string) : string :=
  String dquote (concat_map dumps_char s) ++ str1 dquote.

Definition dumps_float (f : pyfloat) : string :=
  match fl_val f with
  | S754_nan => "NaN"
  | S754_infinity false => "Infinity"
  | S754_infinity true => "-Infinity"
  | _ => fl_repr f
  end.

Fixpoint spaces (n : nat) : string :=
  match n with
  | O => EmptyString
  | S k => String " " (spaces k)
  end.

Definition newline : string := str1 (ascii_of_nat 10).

(** [json.dumps(v, indent=2)] at nesting depth [level]. *)
Fixpoint dumps_at (level : nat) (v : json) : string :=
  let inner := newline ++ spaces (2 * S level) in
  let outer := newline ++ spaces (2 * level) in
  match v with
  | JNull => "null"
  | JBool true => "true"
  | JBool false => "false"
  | JInt z => str_int z
  | JFloat f => dumps_float f
  | JStr s => dumps_str s
  | JList [] => "[]"
  | JList xs =>
      "[" ++ inner ++ join ("," ++ inner) (map (dumps_at (S level)) xs) ++ outer ++ "]"
  | JDict [] => "{}"
  | JDict kvs =>
      "{" ++ inner
          ++ join ("," ++ inner)
               (map (fun kv => dumps_str (fst kv) ++ ": " ++ dumps_at (S level) (snd kv)) kvs)
          ++ outer ++ "}"
  end.

Definition json_dumps_indent2 (v : json) : string := dumps_at 0 v.

(* ================================================================= *)
(** ** Exceptions and fallible builtins *)

(** The exceptions the program can meet, all of them subclasses of
    [Exception]. [OtherError] stands for whatever [call_mac] raises (an httpx
    transport error, a timeout, a reply that is not JSON), by its message. *)
Inductive exn :=
| KeyError (key : string)
| TypeError (msg : string)
| AttributeError (ty attr : string)
| HTTPException (code : Z) (name description : string)
| OtherError (msg : string).

(** [str(e)]. *)
Definition str_exn (e : exn) : string :=
  match e with
  | KeyError k => repr_str k
  | TypeError msg => msg
  | AttributeError ty attr =>
      "'" ++ ty ++ "' object has no attribute '" ++ attr ++ "'"
  | HTTPException code name description =>
      str_int code ++ " " ++ name ++ ": " ++ description
  | OtherError msg => msg
  end.

Inductive outcome (A : Type) :=
| Ret (a : A)
| Raise (e : exn).
Arguments Ret {A} a.
Arguments Raise {A} e.

Fixpoint lookup (k : string) (kvs : list (string * json)) : option json :=
  match kvs with
  | [] => None
  | (k', v) :: rest => if k' =? k then Some v else lookup k rest
  end.

(** [v[k]] for a string key [k] (messages as CPython 3.11 and later word
    them). *)
Definition py_getitem (v : json) (k : string) : outcome json :=
  match v with
  | JDict kvs =>
      match lookup k kvs with
      | Some x => Ret x
      | None => Raise (KeyError k)
      end
  | JList _ => Raise (TypeError "list indices must be integers or slices, not str")
  | JStr _ => Raise (TypeError "string indices must be integers, not 'str'")
  | _ => Raise (TypeError ("'" ++ type_name v ++ "' object is not subscriptable"))
  end.

Definition dict_get (kvs : list (string * json)) (k : string) (default : json) : json :=
  match lookup k kvs with
  | Some x => x
  | None => default
  end.

(** [v.get(k, default)]: only a [dict] has the method. *)
Definition py_get (v : json) (k : string) (default : json) : outcome json :=
  match v with
  | JDict kvs => Ret (dict_get kvs k default)
  | _ => Raise (AttributeError (type_name v) "get")
  end.

(** [v < 0]. *)
Definition py_lt_zero (v : json) : outcome bool :=
  match v with
  | JBool _ => Ret false
  | JInt z => Ret (z <? 0)%Z
  | JFloat f => Ret (SFltb (fl_val f) (S754_zero false))
  | _ =>
      Raise (TypeError ("'<' not supported between instances of '"
                          ++ type_name v ++ "' and 'int'"))
  end.

Definition strip_minus (s : string) : string :=
  match s with
  | String c s' => if Ascii.eqb c "-" then s' else s
  | EmptyString => s
  end.

(** [abs(v)]. *)
Definition py_abs (v : json) : outcome json :=
  match v with
  | JBool b => Ret (JInt (if b then 1 else 0))
  | JInt z => Ret (JInt (Z.abs z))
  | JFloat f => Ret (JFloat (MkFloat (SFabs (fl_val f)) (strip_minus (fl_repr f))))
  | _ => Raise (TypeError ("bad operand type for abs(): '" ++ type_name v ++ "'"))
  end.

(** [s.replace(old, new)] for a non-empty [old]: scan from the left, replace
    each occurrence and resume after it.  [skip] counts the characters of a
    matched occurrence that are still to be dropped. *)
Fixpoint replace_from (skip : nat) (old new s : string) : string :=
  match s with
  | EmptyString => EmptyString
  | String c s' =>
      match skip with
      | S k => replace_from k old new s'
      | O =>
          if prefix old s
          then new ++ replace_from (String.length old - 1) old new s'
          else String c (replace_from 0 old new s')
      end
  end.

Definition str_replace (s old new : string) : string := replace_from 0 old new s.

(** [v.replace(old, new)]: only a [str] has the method. *)
Definition py_replace (v : json) (old new : string) : outcome string :=
  match v with
  | JStr s => Ret (str_replace s old new)
  | _ => Raise (AttributeError (type_name v) "replace")
  end.

(* ================================================================= *)
(** ** The remote endpoint and the monad of handlers *)

(** One request of [call_mac]: [endpoint], [method] and the JSON body
    ([None] for a GET). *)
Record call := MkCall { endpoint : string; verb : string; payload : option json }.

(** The remote side: what [call_mac] gets back for a request, either the
    decoded reply or the exception raised on the way. *)
Definition remote := call -> outcome json.

(** A handler reads the remote's answers and yields the requests it made,
    in order, with its result or the exception it raised. *)
Definition M (A : Type) : Type := remote -> list call * outcome A.

Definition ret {A} (a : A) : M A := fun _ => ([], Ret a).

Definition raise {A} (e : exn) : M A := fun _ => ([], Raise e).

Definition bind {A B} (m : M A) (k : A -> M B) : M B :=
  fun w =>
    match m w with
    | (log, Ret a) => let (log', r) := k a w in ((log ++ log')%list, r)
    | (log, Raise e) => (log, Raise e)
    end.

(** [try: m except Exception as e: h e]. *)
Definition catch {A} (m : M A) (h : exn -> M A) : M A :=
  fun w =>
    match m w with
    | (log, Ret a) => (log, Ret a)
    | (log, Raise e) => let (log', r) := h e w in ((log ++ log')%list, r)
    end.

Definition lift {A} (o : outcome A) : M A := fun _ => ([], o).

Notation "x <- m ;; k" := (bind m (fun x => k))
  (at level 61, m at next level, right associativity).

(** [run_async(call_mac(endpoint, method, data))]. *)
Definition call_mac (endpoint verb : string) (data : option json) : M json :=
  fun w => let c := MkCall endpoint verb data in ([c], w c).

(* ================================================================= *)
(** ** The tool catalog ([TOOLS]) *)

Definition prop_schema (ty description : string) : json :=
  JDict [("type", JStr ty); ("description", JStr description)].

Definition tool (name description : string)
    (properties : list (string * json)) (required : list string) : json :=
  JDict [("name", JStr name);
         ("description", JStr description);
         ("inputSchema",
           JDict [("type", JStr "object");
                  ("properties", JDict properties);
                  ("required", JList (map JStr required))])].

Definition TOOLS : json :=
  JList [
    tool "run_command"
      "Execute a shell command on Mac Studio. Returns stdout, stderr, and return code."
      [("command", prop_schema "string"
          "Shell command to execute (e.g., 'ls -la', 'brew list', 'python3 script.py')")]
      ["command"];
    tool "ssh_to_pi"
      "Execute a command on Raspberry Pi via SSH from Mac Studio"
      [("command", prop_schema "string" "Command to run on the Pi");
       ("host", prop_schema "string" "Pi IP address (default: 192.168.25.225)");
       ("user", prop_schema "string" "SSH user (default: jstewartrr)")]
      ["command"];
    tool "health_check"
      "Check if Mac Studio is reachable and get system info"
      [] [];
    tool "list_files"
      "List files in a directory on Mac Studio"
      [("path", prop_schema "string" "Directory path (default: home directory)")]
      [];
    tool "read_file"
      "Read contents of a file on Mac Studio"
      [("path", prop_schema "string" "Full path to file");
       ("lines", prop_schema "integer"
          "Number of lines to read (default: all). Use negative for tail.")]
      ["path"];
    tool "write_file"
      "Write content to a file on Mac Studio"
      [("path", prop_schema "string" "Full path to file");
       ("content", prop_schema "string" "Content to write");
       ("append", prop_schema "boolean" "Append instead of overwrite (default: false)")]
      ["path"; "content"];
    tool "get_system_info"
      "Get Mac Studio system information (CPU, memory, disk, processes)"
      [] []
  ].

(** The names the catalog registers, in its order. *)
Definition tool_names : list string :=
  ["run_command"; "ssh_to_pi"; "health_check"; "list_files"; "read_file";
   "write_file"; "get_system_info"].

(* ================================================================= *)
(** ** [handle_tool_call] *)

(** [{"content": [{"type": "text", "text": t}]}] *)
Definition text_result (t : json) : json :=
  JDict [("content", JList [JDict [("type", JStr "text"); ("text", t)]])].

(** [{"content": [{"type": "text", "text": t}], "isError": True}] *)
Definition error_result (t : json) : json :=
  JDict [("content", JList [JDict [("type", JStr "text"); ("text", t)]]);
         ("isError", JBool true)].

(** [result.get("stdout", result.get("error", str(result)))] *)
Definition stdout_or_error (result : json) : outcome json :=
  match py_get result "error" (JStr (py_str result)) with
  | Ret fallback => py_get result "stdout" fallback
  | Raise e => Raise e
  end.

Definition run_payload (cmd : json) : option json := Some (JDict [("command", cmd)]).

Definition tool_run_command (arguments : json) : M json :=
  command <- lift (py_getitem arguments "command") ;;
  result <- call_mac "/run" "POST" (run_payload command) ;;
  ret (text_result (JStr (json_dumps_indent2 result))).

Definition tool_ssh_to_pi (arguments : json) : M json :=
  command <- lift (py_getitem arguments "command") ;;
  host <- lift (py_get arguments "host" (JStr "192.168.25.225")) ;;
  user <- lift (py_get arguments "user" (JStr "jstewartrr")) ;;
  result <- call_mac "/ssh" "POST"
              (Some (JDict [("command", command); ("host", host); ("user", user)])) ;;
  ret (text_result (JStr (json_dumps_indent2 result))).

Definition tool_health_check : M json :=
  result <- call_mac "/health" "GET" None ;;
  ret (text_result (JStr (json_dumps_indent2 result))).

Definition tool_list_files (arguments : json) : M json :=
  path <- lift (py_get arguments "path" (JStr "~")) ;;
  let cmd := "ls -la " ++ py_str path in
  result <- call_mac "/run" "POST" (run_payload (JStr cmd)) ;;
  text <- lift (stdout_or_error result) ;;
  ret (text_result text).

(** The command [read_file] builds from [path] and [lines]. *)
Definition read_file_cmd (path lines : json) : outcome string :=
  if truthy lines then
    match py_lt_zero lines with
    | Raise e => Raise e
    | Ret true =>
        match py_abs lines with
        | Raise e => Raise e
        | Ret n => Ret ("tail -n " ++ py_str n ++ " '" ++ py_str path ++ "'")
        end
    | Ret false => Ret ("head -n " ++ py_str lines ++ " '" ++ py_str path ++ "'")
    end
  else Ret ("cat '" ++ py_str path ++ "'").

Definition tool_read_file (arguments : json) : M json :=
  path <- lift (py_getitem arguments "path") ;;
  lines <- lift (py_get arguments "lines" JNull) ;;
  cmd <- lift (read_file_cmd path lines) ;;
  result <- call_mac "/run" "POST" (run_payload (JStr cmd)) ;;
  text <- lift (stdout_or_error result) ;;
  ret (text_result text).

Definition tool_write_file (arguments : json) : M json :=
  path <- lift (py_getitem arguments "path") ;;
  content <- lift (py_getitem arguments "content") ;;
  append <- lift (py_get arguments "append" (JBool false)) ;;
  escaped <- lift (py_replace content "'" "'\''") ;;
  let op := if truthy append then ">>" else ">" in
  let cmd := "echo '" ++ escaped ++ "' " ++ op ++ " '" ++ py_str path ++ "'" in
  result <- call_mac "/run" "POST" (run_payload (JStr cmd)) ;;
  returncode <- lift (py_get result "returncode" (JInt 1)) ;;
  if py_eq_zero returncode then
    ret (text_result (JStr ("Successfully wrote to " ++ py_str path)))
  else
    stderr <- lift (py_get result "stderr" (JStr (py_str result))) ;;
    ret (error_result (JStr ("Error: " ++ py_str stderr))).

Definition system_info_cmd : string :=
  "echo '=== HOSTNAME ===' && hostname && "
  ++ "echo '=== UPTIME ===' && uptime && "
  ++ "echo '=== CPU ===' && sysctl -n machdep.cpu.brand_string && "
  ++ "echo '=== MEMORY ===' && vm_stat | head -5 && "
  ++ "echo '=== DISK ===' && df -h / && "
  ++ "echo '=== TOP PROCESSES ===' && ps aux | head -10".

Definition tool_get_system_info : M json :=
  result <- call_mac "/run" "POST" (run_payload (JStr system_info_cmd)) ;;
  text <- lift (stdout_or_error result) ;;
  ret (text_result text).

(** The body of the [try] in [handle_tool_call]. *)
Definition handle_tool_call_try (name arguments : json) : M json :=
  if py_eq_str name "run_command" then tool_run_command arguments
  else if py_eq_str name "ssh_to_pi" then tool_ssh_to_pi arguments
  else if py_eq_str name "health_check" then tool_health_check
  else if py_eq_str name "list_files" then tool_list_files arguments
  else if py_eq_str name "read_file" then tool_read_file arguments
  else if py_eq_str name "write_file" then tool_write_file arguments
  else if py_eq_str name "get_system_info" then tool_get_system_info
  else ret (error_result (JStr ("Unknown tool: " ++ py_str name))).

Definition handle_tool_call (name arguments : json) : M json :=
  catch (handle_tool_call_try name arguments)
        (fun e => ret (error_result (JStr ("Error: " ++ str_exn e)))).

(* ================================================================= *)
(** ** [process_mcp_message] *)

Definition rpc_result (request_id result : json) : json :=
  JDict [("jsonrpc", JStr "2.0"); ("id", request_id); ("result", result)].

Definition rpc_error (request_id : json) (code : Z) (message : string) : json :=
  JDict [("jsonrpc", JStr "2.0"); ("id", request_id);
         ("error", JDict [("code", JInt code); ("message", JStr message)])].

Definition initialize_result : json :=
  JDict [("protocolVersion", JStr "2024-11-05");
         ("capabilities", JDict [("tools", JDict [("listChanged", JBool true)])]);
         ("serverInfo", JDict [("name", JStr "mac-studio-mcp"); ("version", JStr "1.0.0")])].

Definition process_mcp_message (data : json) : M json :=
  method <- lift (py_get data "method" (JStr "")) ;;
  params <- lift (py_get data "params" (JDict [])) ;;
  request_id <- lift (py_get data "id" (JInt 1)) ;;
  if py_eq_str method "initialize" then
    ret (rpc_result request_id initialize_result)
  else if py_eq_str method "tools/list" then
    ret (rpc_result request_id (JDict [("tools", TOOLS)]))
  else if py_eq_str method "tools/call" then
    tool_name <- lift (py_get params "name" (JStr "")) ;;
    arguments <- lift (py_get params "arguments" (JDict [])) ;;
    result <- handle_tool_call tool_name arguments ;;
    ret (rpc_result request_id result)
  else if py_eq_str method "notifications/initialized" then
    ret (rpc_result request_id (JDict []))
  else
    ret (rpc_error request_id (-32601) ("Method not found: " ++ py_str method)).

(* ================================================================= *)
(** ** The [POST /mcp] route *)

(** What the route needs of a Flask request: whether its Content-Type is JSON
    ([request.is_json]) and what the JSON decoder makes of its body, [None]
    when the body is not valid JSON. *)
Record flask_request := MkRequest { is_json : bool; body_json : option json }.

(** [request.get_json()] with its defaults ([force=False], [silent=False]),
    as Flask 2.1 and later document it: a request that is not JSON, or whose
    body does not parse, goes to [on_json_loading_failed], which raises
    [UnsupportedMediaType] (415) or [BadRequest] (400); both are
    [HTTPException]s, hence [Exception]s. *)
Definition get_json (request : flask_request) : outcome json :=
  if is_json request then
    match body_json request with
    | Some v => Ret v
    | None =>
        Raise (HTTPException 400 "Bad Request"
                 "The browser (or proxy) sent a request that this server could not understand.")
    end
  else
    Raise (HTTPException 415 "Unsupported Media Type"
             "Did not attempt to load JSON data because the request Content-Type was not 'application/json'.").

(** A Flask response: the JSON body given to [jsonify] and the status code
    (200 when the view returns no code). *)
Record http_response := MkResponse { body : json; status : Z }.

(** The view with the outcome of [request.get_json()] as its input. *)
Definition mcp_handler_on (parsed : outcome json) : M http_response :=
  catch
    (data <- lift parsed ;;
     if negb (truthy data) then
       ret (MkResponse (rpc_error JNull (-32700) "Parse error") 400)
     else
       response <- process_mcp_message data ;;
       ret (MkResponse response 200))
    (fun e => ret (MkResponse (rpc_error (JInt 1) (-32603) (str_exn e)) 500)).

Definition mcp_handler (request : flask_request) : M http_response :=
  mcp_handler_on (get_json request).

(* ================================================================= *)
(** ** Observations on results *)

(** The value under key [k] of a response, when it is a mapping with that key. *)
Definition field (k : string) (v : json) : option json :=
  match v with
  | JDict kvs => lookup k kvs
  | _ => None
  end.

Definition has_field (k : string) (v : json) : bool :=
  match field k v with
  | Some _ => true
  | None => false
  end.

(** A ToolCallResult carries [isError] set to true. *)
Definition is_error (v : json) : bool :=
  match field "isError" v with
  | Some (JBool true) => true
  | _ => false
  end.

(** The name is one of the seven the catalog registers. *)
Definition registered (name : json) : bool := existsb (py_eq_str name) tool_names.

(** The spec's words for a failed remote call: a transport exception, or a
    reply whose return code is absent or not zero. *)
Definition remote_signaled_failure (reply : outcome json) : bool :=
  match reply with
  | Raise _ => true
  | Ret r =>
      match field "returncode" r with
      | Some rc => negb (py_eq_zero rc)
      | None => true
      end
  end.

(** The spec's words for the escaping of [write_file]: every single quote
    becomes the four characters quote, backslash, quote, quote. *)
Definition escape_single_quotes (content : string) : string :=
  concat_map (fun c => if Ascii.eqb c squote then "'\''" else str1 c) content.

(** A response carries exactly one of [result] and [error]. *)
Definition exactly_one_of_result_error (response : json) : bool :=
  xorb (has_field "result" response) (has_field "error" response).

(** Remote endpoints used in the examples below. *)
Definition remote_exit (code : Z) : remote :=
  fun _ => Ret (JDict [("stdout", JStr ""); ("stderr", JStr "boom"); ("returncode", JInt code)]).

Definition remote_down : remote := fun _ => Raise (OtherError "All connection attempts failed").

(** What [handle_tool_call] makes of the remote's answer for the tools that
    return [stdout] with its fallbacks. *)
Definition stdout_result (reply : outcome json) : json :=
  match reply with
  | Ret result =>
      match stdout_or_error result with
      | Ret text => text_result text
      | Raise e => error_result (JStr ("Error: " ++ str_exn e))
      end
  | Raise e => error_result (JStr ("Error: " ++ str_exn e))
  end.

(** The result [write_file] builds from the remote's answer. *)
Definition write_file_result (path : string) (reply : outcome json) : json :=
  match reply with
  | Ret result =>
      match py_get result "returncode" (JInt 1) with
      | Ret returncode =>
          if py_eq_zero returncode
          then text_result (JStr ("Successfully wrote to " ++ path))
          else
            match py_get result "stderr" (JStr (py_str result)) with
            | Ret stderr => error_result (JStr ("Error: " ++ py_str stderr))
            | Raise e => error_result (JStr ("Error: " ++ str_exn e))
            end
      | Raise e => error_result (JStr ("Error: " ++ str_exn e))
      end
  | Raise e => error_result (JStr ("Error: " ++ str_exn e))
  end.

(** A run of a tool body that returns does so without [isError]. *)
Definition returns_without_isError (run : list call * outcome json) : Prop :=
  match snd run with
  | Ret v => is_error v = false
  | Raise _ => True
  end.

(** The id of the response a run of the route produced. *)
Definition response_id (run : list call * outcome http_response) : option json :=
  match snd run with
  | Ret response => field "id" (body response)
  | Raise _ => None
  end.

(** A JSON-RPC request with positional [params], which JSON-RPC 2.0 allows. *)
Definition positional_params_request : json :=
  JDict [("jsonrpc", JStr "2.0"); ("id", JInt 7); ("method", JStr "tools/call");
         ("params", JList [JInt 1])].

(* ================================================================= *)
(** ** The [GET /] route and further observations *)

(** [len(v)] of a list. *)
Definition py_len (v : json) : Z :=
  match v with
  | JList xs => Z.of_nat (List.length xs)
  | _ => 0%Z
  end.

(** The probe of [health]: the body of its [try], with the bare [except:]
    that answers ["unreachable"] on any exception. *)
Definition probe_mac : M string :=
  catch
    (result <- call_mac "/health" "GET" None ;;
     status <- lift (py_get result "status" JNull) ;;
     ret (if py_eq_str status "ok" then "connected" else "error"))
    (fun _ => ret "unreachable").

(** The view of [GET /]; [mac_funnel_url] is the configured [MAC_FUNNEL_URL]. *)
Definition health (mac_funnel_url : string) : M http_response :=
  mac_status <- probe_mac ;;
  ret (MkResponse
         (JDict [("status", JStr "healthy");
                 ("service", JStr "mac-studio-mcp");
                 ("version", JStr "1.0.0");
                 ("mac_funnel_url", JStr mac_funnel_url);
                 ("mac_status", JStr mac_status);
                 ("tools", JInt (py_len TOOLS))])
         200).

(** The descriptor [TOOLS] holds for a name, if any. *)
Definition find_tool (name : string) : option json :=
  match TOOLS with
  | JList tools =>
      find (fun t => match field "name" t with
                     | Some n => py_eq_str n name
                     | None => false
                     end) tools
  | _ => None
  end.

(** The keys the descriptor of [name] lists under [inputSchema.required]. *)
Definition required_args (name : string) : list string :=
  match find_tool name with
  | Some t =>
      match field "inputSchema" t with
      | Some schema =>
          match field "required" schema with
          | Some (JList ks) =>
              flat_map (fun k => match k with JStr s => [s] | _ => [] end) ks
          | _ => []
          end
      | None => []
      end
  | None => []
  end.

(** The requests [call_mac] is ever asked to make: a POST with a body to
    [/run] or [/ssh], or a GET without one to [/health]. *)
Definition known_call (c : call) : bool :=
  match payload c with
  | Some _ => ((endpoint c =? "/run") || (endpoint c =? "/ssh")) && (verb c =? "POST")
  | None => (endpoint c =? "/health") && (verb c =? "GET")
  end.

(** A log of at most one request, and that one a known one. *)
Definition at_most_one_known (log : list call) : Prop :=
  log = [] \/ exists c, log = [c] /\ known_call c = true.

(** The text [stdout_or_error] picks from a reply that is a mapping:
    [stdout], else [error], else the reply as [str] prints it. *)
Definition fallback_text (reply : list (string * json)) : json :=
  match lookup "stdout" reply with
  | Some out => out
  | None =>
      match lookup "error" reply with
      | Some err => err
      | None => JStr (py_str (JDict reply))
      end
  end.

(** How a POSIX shell reads a word that is made of single-quoted parts and
    backslash-escaped characters: between single quotes every character
    stands for itself up to the closing quote; outside them a backslash makes
    the next character literal (and swallows a newline).  Any other unquoted
    character is outside this reading ([None]), and so is a quote left open. *)
Fixpoint sh_word (in_quotes : bool) (s : string) : option string :=
  match s with
  | EmptyString => if in_quotes then None else Some EmptyString
  | String c rest =>
      if in_quotes then
        if Ascii.eqb c squote then sh_word false rest
        else option_map (String c) (sh_word true rest)
      else if Ascii.eqb c squote then sh_word true rest
      else if Ascii.eqb c backslash then
        match rest with
        | String d rest' =>
            if Ascii.eqb d (ascii_of_nat 10) then sh_word false rest'
            else option_map (String d) (sh_word false rest')
        | EmptyString => None
        end
      else None
  end.

Fixpoint count_char (c : ascii) (s : string) : nat :=
  match s with
  | EmptyString => O
  | String d s' => (if Ascii.eqb c d then 1 else 0) + count_char c s'
  end.

(* ================================================================= *)
(** ** Proof tools *)

Ltac unfold_m := unfold bind, lift, ret, raise, call_mac.

(* ================================================================= *)
(** ** Basic facts *)

Lemma bind_lift_ret {A B} (a : A) (k : A -> M B) (w : remote) :
  bind (lift (Ret a)) k w = k a w.
Proof. unfold bind, lift. now destruct (k a w). Qed.

Lemma bind_lift_raise {A B} (e : exn) (k : A -> M B) (w : remote) :
  bind (lift (@Raise A e)) k w = ([], Raise e).
Proof. reflexivity. Qed.

Lemma bind_call_mac {B} (ep v : string) (d : option json) (k : json -> M B) (w : remote) :
  bind (call_mac ep v d) k w =
  match w (MkCall ep v d) with
  | Ret result => (MkCall ep v d :: fst (k result w), snd (k result w))
  | Raise e => ([MkCall ep v d], Raise e)
  end.
Proof.
  unfold bind, call_mac. destruct (w (MkCall ep v d)); [| reflexivity].
  now destruct (k a w).
Qed.

Ltac step :=
  match goal with
  | |- context [bind (lift ?o) ?k ?w] =>
      let E := fresh "E" in
      destruct o eqn:E; [rewrite bind_lift_ret | rewrite bind_lift_raise]
  | |- context [bind (call_mac ?ep ?v ?d) ?k ?w] =>
      let E := fresh "Hw" in
      rewrite bind_call_mac; destruct (w (MkCall ep v d)) eqn:E
  end.

Lemma catch_returns {A} (m : M A) (f : exn -> A) (w : remote) :
  catch m (fun e => ret (f e)) w =
  (fst (m w), Ret (match snd (m w) with Ret a => a | Raise e => f e end)).
Proof.
  unfold catch, ret. destruct (m w) as [log [a | e]]; simpl; trivial.
  now rewrite app_nil_r.
Qed.

Lemma py_eq_str_true (v : json) (s : string) :
  py_eq_str v s = true <-> v = JStr s.
Proof.
  destruct v; simpl; split; intros H; try discriminate.
  - apply String.eqb_eq in H. now subst.
  - inversion H. apply String.eqb_refl.
Qed.

Lemma registered_true (name : json) :
  registered name = true <-> exists s, In s tool_names /\ name = JStr s.
Proof.
  unfold registered. rewrite existsb_exists. split; intros [s [Hin H]]; exists s.
  - split; [assumption | now apply py_eq_str_true].
  - split; [assumption | now apply py_eq_str_true].
Qed.

Lemma unknown_tool_try (name arguments : json) :
  registered name = false ->
  handle_tool_call_try name arguments =
  ret (error_result (JStr ("Unknown tool: " ++ py_str name))).
Proof.
  unfold registered, tool_names. simpl. intros H.
  repeat (apply orb_false_iff in H; destruct H as [?H H]).
  unfold handle_tool_call_try.
  repeat match goal with E : py_eq_str _ _ = false |- _ => rewrite E; clear E end.
  reflexivity.
Qed.

Lemma not_in_tool_names (name : string) :
  ~ In name tool_names -> registered (JStr name) = false.
Proof.
  intros H. destruct (registered (JStr name)) eqn:E; trivial.
  apply registered_true in E. destruct E as [s [Hin Hs]].
  inversion Hs. subst. contradiction.
Qed.

(** [tool_names] lists the names of [TOOLS], in order, and no name twice. *)
Lemma tool_names_are_the_catalog :
  match TOOLS with
  | JList tools => map (field "name") tools = map (fun s => Some (JStr s)) tool_names
  | _ => False
  end
  /\ NoDup tool_names.
Proof.
  split; [reflexivity |].
  repeat (constructor; [simpl; intuition discriminate |]). constructor.
Qed.

Lemma handle_tool_call_unknown (name arguments : json) (w : remote) :
  registered name = false ->
  handle_tool_call name arguments w =
  ([], Ret (error_result (JStr ("Unknown tool: " ++ py_str name)))).
Proof.
  intros H. unfold handle_tool_call. rewrite catch_returns.
  now rewrite (unknown_tool_try _ _ H).
Qed.

(** C6. A [tools/call] whose tool name is none of the seven registered names
    returns [isError] true with the text ["Unknown tool: <name>"], and makes no
    request to the remote endpoint. *)
Theorem unknown_tool_is_error_without_remote_call
    (name : string) (arguments : json) (w : remote)
    (Hunknown : ~ In name tool_names) :
  handle_tool_call (JStr name) arguments w =
  ([], Ret (error_result (JStr ("Unknown tool: " ++ name)))).
Proof.
  exact (handle_tool_call_unknown (JStr name) arguments w
           (not_in_tool_names name Hunknown)).
Qed.

(** C6 at a name the catalog does not have. *)
Lemma unknown_tool_example :
  ~ In "delete_file" tool_names /\
  handle_tool_call (JStr "delete_file") (JDict [("path", JStr "/tmp/x")]) remote_down =
  ([], Ret (error_result (JStr "Unknown tool: delete_file"))).
Proof.
  assert (H : ~ In "delete_file" tool_names).
  { simpl. intros [H | [H | [H | [H | [H | [H | [H | H]]]]]]];
      solve [discriminate H | exact H]. }
  split; [exact H |].
  exact (unknown_tool_is_error_without_remote_call "delete_file" _ remote_down H).
Defined.

(* ================================================================= *)
(** ** The dispatcher on a mapping *)

Lemma handle_tool_call_returns (name arguments : json) (w : remote) :
  exists v, handle_tool_call name arguments w =
            (fst (handle_tool_call_try name arguments w), Ret v).
Proof.
  unfold handle_tool_call. rewrite catch_returns. eauto.
Qed.

(** [tools/call] with a mapping for [params] (the default when absent):
    the tool's result is wrapped in [result] under the request's id. *)
Lemma process_tools_call (kvs pkvs : list (string * json)) (w : remote) :
  dict_get kvs "method" (JStr "") = JStr "tools/call" ->
  dict_get kvs "params" (JDict []) = JDict pkvs ->
  exists log v,
    handle_tool_call (dict_get pkvs "name" (JStr ""))
                     (dict_get pkvs "arguments" (JDict [])) w = (log, Ret v)
    /\ process_mcp_message (JDict kvs) w =
       (log, Ret (rpc_result (dict_get kvs "id" (JInt 1)) v)).
Proof.
  intros Hm Hp.
  destruct (handle_tool_call_returns (dict_get pkvs "name" (JStr ""))
              (dict_get pkvs "arguments" (JDict [])) w) as [v Hv].
  eexists _, v. split; [exact Hv |].
  unfold process_mcp_message. unfold_m. simpl.
  rewrite Hm, Hp. simpl. rewrite Hv. simpl. now rewrite app_nil_r.
Qed.

(** Any other method answers without touching [params]. *)
Lemma process_other_method (kvs : list (string * json)) (w : remote) :
  py_eq_str (dict_get kvs "method" (JStr "")) "tools/call" = false ->
  let method := dict_get kvs "method" (JStr "") in
  let request_id := dict_get kvs "id" (JInt 1) in
  process_mcp_message (JDict kvs) w =
  ([], Ret (if py_eq_str method "initialize" then rpc_result request_id initialize_result
            else if py_eq_str method "tools/list" then
                   rpc_result request_id (JDict [("tools", TOOLS)])
            else if py_eq_str method "notifications/initialized" then
                   rpc_result request_id (JDict [])
            else rpc_error request_id (-32601) ("Method not found: " ++ py_str method))).
Proof.
  intros H method request_id.
  unfold process_mcp_message. unfold_m. simpl.
  fold method request_id. fold method in H. rewrite H.
  destruct (py_eq_str method "initialize"); [reflexivity |].
  destruct (py_eq_str method "tools/list"); [reflexivity |].
  destruct (py_eq_str method "notifications/initialized"); reflexivity.
Qed.

(** [tools/call] with [params] that is not a mapping: [params.get] raises
    outside [handle_tool_call]. *)
Lemma process_tools_call_bad_params (kvs : list (string * json)) (w : remote) :
  dict_get kvs "method" (JStr "") = JStr "tools/call" ->
  (forall pkvs, dict_get kvs "params" (JDict []) <> JDict pkvs) ->
  process_mcp_message (JDict kvs) w =
  ([], Raise (AttributeError (type_name (dict_get kvs "params" (JDict []))) "get")).
Proof.
  intros Hm Hp. unfold process_mcp_message. unfold_m. simpl. rewrite Hm. simpl.
  destruct (dict_get kvs "params" (JDict [])) eqn:E; try reflexivity.
  now destruct (Hp kvs0).
Qed.

(* ================================================================= *)
(** ** The route *)

Lemma mcp_handler_on_raise (e : exn) (w : remote) :
  mcp_handler_on (Raise e) w =
  ([], Ret (MkResponse (rpc_error (JInt 1) (-32603) (str_exn e)) 500)).
Proof. reflexivity. Qed.

Lemma mcp_handler_on_falsy (data : json) (w : remote) :
  truthy data = false ->
  mcp_handler_on (Ret data) w =
  ([], Ret (MkResponse (rpc_error JNull (-32700) "Parse error") 400)).
Proof.
  intros H. unfold mcp_handler_on, catch. unfold_m. simpl. now rewrite H.
Qed.

Lemma mcp_handler_on_truthy (data : json) (w : remote) :
  truthy data = true ->
  mcp_handler_on (Ret data) w =
  (fst (process_mcp_message data w),
   Ret (match snd (process_mcp_message data w) with
        | Ret response => MkResponse response 200
        | Raise e => MkResponse (rpc_error (JInt 1) (-32603) (str_exn e)) 500
        end)).
Proof.
  intros H. unfold mcp_handler_on, catch. unfold_m. simpl. rewrite H. simpl.
  destruct (process_mcp_message data w) as [log [response | e]]; simpl;
    now rewrite ?app_nil_r.
Qed.

Lemma dict_with_method_truthy (kvs : list (string * json)) (m : string) :
  dict_get kvs "method" (JStr "") = JStr m -> m <> "" -> truthy (JDict kvs) = true.
Proof.
  destruct kvs; simpl; trivial. unfold dict_get. simpl. intros H Hm.
  inversion H. congruence.
Qed.

(** C8, as stated, fails in its last clause: a [tools/call] request whose
    [params] is null raises at [params.get], before [handle_tool_call] is
    called and outside its [try], and is answered on the internal-fault path
    with status 500 and code -32603. *)
Lemma tools_call_with_null_params_faults :
  process_mcp_message
    (JDict [("jsonrpc", JStr "2.0"); ("id", JInt 2); ("method", JStr "tools/call");
            ("params", JNull)])
    remote_down = ([], Raise (AttributeError "NoneType" "get"))
  /\ mcp_handler
       (MkRequest true
          (Some (JDict [("jsonrpc", JStr "2.0"); ("id", JInt 2);
                        ("method", JStr "tools/call"); ("params", JNull)])))
       remote_down =
     ([], Ret (MkResponse
                 (rpc_error (JInt 1) (-32603) "'NoneType' object has no attribute 'get'")
                 500)).
Proof. split; reflexivity. Qed.

(** C8, amended. Whatever the tool name, the arguments and the remote
    endpoint's behaviour, [handle_tool_call] returns: an exception raised
    while the call is built or executed becomes the result with [isError]
    true and the text ["Error: <message>"].  This covers a missing required
    argument and a failure inside [call_mac] (transport, or a reply that is
    not JSON).  So a [tools/call] request whose [params] is a mapping, or
    absent, is answered with status 200 and a [result], never on the
    internal-fault path; one whose [params] is present and not a mapping
    faults at [params.get], before [handle_tool_call] is called, and gets
    status 500 with code -32603. *)
Theorem handle_tool_call_never_raises (name arguments : json) (w : remote) :
  handle_tool_call name arguments w =
    (fst (handle_tool_call_try name arguments w),
     Ret (match snd (handle_tool_call_try name arguments w) with
          | Ret v => v
          | Raise e => error_result (JStr ("Error: " ++ str_exn e))
          end))
  /\ (forall kvs, lookup "command" kvs = None ->
        handle_tool_call (JStr "run_command") (JDict kvs) w =
        ([], Ret (error_result (JStr "Error: 'command'"))))
  /\ (forall kvs cmd e,
        lookup "command" kvs = Some cmd ->
        w (MkCall "/run" "POST" (run_payload cmd)) = Raise e ->
        handle_tool_call (JStr "run_command") (JDict kvs) w =
        ([MkCall "/run" "POST" (run_payload cmd)],
         Ret (error_result (JStr ("Error: " ++ str_exn e)))))
  /\ (forall kvs pkvs,
        dict_get kvs "method" (JStr "") = JStr "tools/call" ->
        dict_get kvs "params" (JDict []) = JDict pkvs ->
        exists log v,
          mcp_handler_on (Ret (JDict kvs)) w =
          (log, Ret (MkResponse (rpc_result (dict_get kvs "id" (JInt 1)) v) 200)))
  /\ (forall kvs,
        dict_get kvs "method" (JStr "") = JStr "tools/call" ->
        lookup "params" kvs = None ->
        exists log v,
          mcp_handler_on (Ret (JDict kvs)) w =
          (log, Ret (MkResponse (rpc_result (dict_get kvs "id" (JInt 1)) v) 200)))
  /\ (forall kvs,
        dict_get kvs "method" (JStr "") = JStr "tools/call" ->
        (forall pkvs, dict_get kvs "params" (JDict []) <> JDict pkvs) ->
        mcp_handler_on (Ret (JDict kvs)) w =
        ([], Ret (MkResponse
                    (rpc_error (JInt 1) (-32603)
                       ("'" ++ type_name (dict_get kvs "params" (JDict []))
                            ++ "' object has no attribute 'get'"))
                    500))).
Proof.
  assert (Hok : forall kvs pkvs,
             dict_get kvs "method" (JStr "") = JStr "tools/call" ->
             dict_get kvs "params" (JDict []) = JDict pkvs ->
             exists log v,
               mcp_handler_on (Ret (JDict kvs)) w =
               (log, Ret (MkResponse (rpc_result (dict_get kvs "id" (JInt 1)) v) 200))).
  { intros kvs pkvs Hm Hp.
    destruct (process_tools_call kvs pkvs w Hm Hp) as [log [v [_ H]]].
    exists log, v. rewrite mcp_handler_on_truthy.
    + now rewrite H.
    + apply (dict_with_method_truthy kvs "tools/call" Hm). discriminate. }
  split; [| split; [| split; [| split; [| split]]]].
  - unfold handle_tool_call. now rewrite catch_returns.
  - intros kvs H. unfold handle_tool_call. rewrite catch_returns.
    unfold handle_tool_call_try, tool_run_command. unfold_m. simpl. now rewrite H.
  - intros kvs cmd e H Hw. unfold handle_tool_call. rewrite catch_returns.
    unfold handle_tool_call_try, tool_run_command. unfold_m. simpl.
    rewrite H. simpl. now rewrite Hw.
  - exact Hok.
  - intros kvs Hm Hp. apply (Hok kvs [] Hm). unfold dict_get. now rewrite Hp.
  - intros kvs Hm Hp.
    rewrite mcp_handler_on_truthy
      by (apply (dict_with_method_truthy kvs "tools/call" Hm); discriminate).
    now rewrite (process_tools_call_bad_params kvs w Hm Hp).
Qed.

(** C10. A [tools/call] request whose [params] is a mapping gets [name]
    defaulted to the empty string and [arguments] to the empty mapping; the
    answer is a JSON-RPC [result] holding the tool result, and with no [name]
    that tool result is the [isError] text ["Unknown tool: "], reached without
    any remote request. *)
Theorem tools_call_defaults_name_and_arguments
    (kvs pkvs : list (string * json)) (w : remote)
    (Hmethod : dict_get kvs "method" (JStr "") = JStr "tools/call")
    (Hparams : dict_get kvs "params" (JDict []) = JDict pkvs) :
  let request_id := dict_get kvs "id" (JInt 1) in
  (exists log v,
      handle_tool_call (dict_get pkvs "name" (JStr ""))
                       (dict_get pkvs "arguments" (JDict [])) w = (log, Ret v)
      /\ process_mcp_message (JDict kvs) w = (log, Ret (rpc_result request_id v))
      /\ mcp_handler_on (Ret (JDict kvs)) w =
         (log, Ret (MkResponse (rpc_result request_id v) 200)))
  /\ (lookup "name" pkvs = None ->
      process_mcp_message (JDict kvs) w =
      ([], Ret (rpc_result request_id (error_result (JStr "Unknown tool: "))))
      /\ has_field "error" (rpc_result request_id (error_result (JStr "Unknown tool: "))) = false).
Proof.
  intros request_id. split.
  - destruct (process_tools_call kvs pkvs w Hmethod Hparams) as [log [v [Hv H]]].
    exists log, v. repeat split; trivial.
    rewrite mcp_handler_on_truthy.
    + now rewrite H.
    + apply (dict_with_method_truthy kvs "tools/call" Hmethod). discriminate.
  - intros Hname. split; [| reflexivity].
    destruct (process_tools_call kvs pkvs w Hmethod Hparams) as [log [v [Hv H]]].
    rewrite H. unfold dict_get in Hv at 1. rewrite Hname in Hv.
    rewrite (handle_tool_call_unknown (JStr "") _ w eq_refl) in Hv.
    inversion Hv. reflexivity.
Qed.

(** C10 at a request with no [params] at all. *)
Lemma tools_call_example :
  exists log v,
    process_mcp_message
      (JDict [("jsonrpc", JStr "2.0"); ("id", JInt 7); ("method", JStr "tools/call")])
      remote_down = (log, Ret (rpc_result (JInt 7) v))
    /\ process_mcp_message
      (JDict [("jsonrpc", JStr "2.0"); ("id", JInt 7); ("method", JStr "tools/call")])
      remote_down = ([], Ret (rpc_result (JInt 7) (error_result (JStr "Unknown tool: ")))).
Proof.
  destruct (tools_call_defaults_name_and_arguments
              [("jsonrpc", JStr "2.0"); ("id", JInt 7); ("method", JStr "tools/call")]
              [] remote_down eq_refl eq_refl) as [[log [v [_ [H _]]]] H0].
  exists log, v. split; [exact H | exact (proj1 (H0 eq_refl))].
Defined.

Lemma process_answers (kvs : list (string * json)) (w : remote) :
  (dict_get kvs "method" (JStr "") = JStr "tools/call" ->
   exists pkvs, dict_get kvs "params" (JDict []) = JDict pkvs) ->
  exists log response,
    process_mcp_message (JDict kvs) w = (log, Ret response)
    /\ ((exists v, response = rpc_result (dict_get kvs "id" (JInt 1)) v)
        \/ (exists msg, response = rpc_error (dict_get kvs "id" (JInt 1)) (-32601) msg)).
Proof.
  intros Hparams.
  destruct (py_eq_str (dict_get kvs "method" (JStr "")) "tools/call") eqn:Ecall.
  - apply py_eq_str_true in Ecall. destruct (Hparams Ecall) as [pkvs Hp].
    destruct (process_tools_call kvs pkvs w Ecall Hp) as [log [v [_ H]]].
    exists log, (rpc_result (dict_get kvs "id" (JInt 1)) v). eauto.
  - pose proof (process_other_method kvs w Ecall) as H. cbv zeta in H.
    eexists _, _. split; [exact H |].
    repeat match goal with |- context [if ?b then _ else _] => destruct b end; eauto.
Qed.

(** Whatever [process_mcp_message] returns is a [result] or the
    method-not-found [error]. *)
Lemma process_returns_shape (data : json) (w : remote) (response : json) :
  snd (process_mcp_message data w) = Ret response ->
  (exists request_id v, response = rpc_result request_id v)
  \/ (exists request_id msg, response = rpc_error request_id (-32601) msg).
Proof.
  intros H. destruct data as [| | | | | | kvs]; try discriminate H.
  destruct (py_eq_str (dict_get kvs "method" (JStr "")) "tools/call") eqn:Ecall.
  - apply py_eq_str_true in Ecall.
    destruct (dict_get kvs "params" (JDict [])) as [| | | | | | pkvs] eqn:Ep;
      try (rewrite process_tools_call_bad_params in H;
           [discriminate H | exact Ecall | intros pkvs; rewrite Ep; discriminate]).
    destruct (process_tools_call kvs pkvs w Ecall Ep) as [log [v [_ Hv]]].
    rewrite Hv in H. inversion H. eauto.
  - rewrite (process_other_method kvs w Ecall) in H. simpl in H. inversion H.
    repeat match goal with |- context [if ?b then _ else _] => destruct b end; eauto.
Qed.

Lemma exactly_one_of_shape (response : json) :
  (exists request_id v, response = rpc_result request_id v)
  \/ (exists request_id msg, response = rpc_error request_id (-32601) msg) ->
  exactly_one_of_result_error response = true.
Proof. intros [[i [v H]] | [i [m H]]]; subst response; reflexivity. Qed.

(** C7. For a parsed request (a mapping, whose [params] is a mapping or absent
    when the method is [tools/call]), [process_mcp_message] returns a response
    that carries exactly one of [result] and [error]: [initialize],
    [tools/list], [tools/call] and [notifications/initialized] give a [result],
    every other method gives the error with code -32601 and the message
    ["Method not found: <method>"].  On any input at all, a response that
    [process_mcp_message] returns has exactly one of the two, and so has the
    body of every response of the route. *)
Theorem response_has_exactly_one_of_result_error
    (kvs : list (string * json)) (w : remote)
    (Hparams : dict_get kvs "method" (JStr "") = JStr "tools/call" ->
               exists pkvs, dict_get kvs "params" (JDict []) = JDict pkvs) :
  let method := dict_get kvs "method" (JStr "") in
  let request_id := dict_get kvs "id" (JInt 1) in
  (exists log response,
    process_mcp_message (JDict kvs) w = (log, Ret response)
    /\ exactly_one_of_result_error response = true
    /\ (method = JStr "initialize" -> response = rpc_result request_id initialize_result)
    /\ (method = JStr "tools/list" ->
        response = rpc_result request_id (JDict [("tools", TOOLS)]))
    /\ (method = JStr "tools/call" -> exists v, response = rpc_result request_id v)
    /\ (method = JStr "notifications/initialized" ->
        response = rpc_result request_id (JDict []))
    /\ (method <> JStr "initialize" -> method <> JStr "tools/list" ->
        method <> JStr "tools/call" -> method <> JStr "notifications/initialized" ->
        response = rpc_error request_id (-32601) ("Method not found: " ++ py_str method)))
  /\ (forall data w' response,
        snd (process_mcp_message data w') = Ret response ->
        exactly_one_of_result_error response = true)
  /\ (forall parsed w',
        exists log response,
          mcp_handler_on parsed w' = (log, Ret response)
          /\ exactly_one_of_result_error (body response) = true).
Proof.
  intros method request_id. split; [| split].
  2: { intros data w' response H.
       exact (exactly_one_of_shape response (process_returns_shape data w' response H)). }
  2: { intros [data | e] w'.
       - destruct (truthy data) eqn:Et.
         + rewrite (mcp_handler_on_truthy data w' Et).
           destruct (snd (process_mcp_message data w')) as [response | e] eqn:Es.
           * eexists _, _. split; [reflexivity |].
             exact (exactly_one_of_shape response
                      (process_returns_shape data w' response Es)).
           * eexists _, _. split; reflexivity.
         + rewrite (mcp_handler_on_falsy data w' Et). eexists _, _. split; reflexivity.
       - rewrite mcp_handler_on_raise. eexists _, _. split; reflexivity. }
  destruct (py_eq_str method "tools/call") eqn:Ecall.
  - apply py_eq_str_true in Ecall. destruct (Hparams Ecall) as [pkvs Hp].
    destruct (process_tools_call kvs pkvs w Ecall Hp) as [log [v [_ H]]].
    exists log, (rpc_result request_id v). split; [exact H |].
    split; [reflexivity |].
    fold method in Ecall. rewrite Ecall.
    repeat split; try discriminate; eauto. congruence.
  - pose proof (process_other_method kvs w Ecall) as H. cbv zeta in H.
    fold method request_id in H. eexists _, _. split; [exact H |].
    destruct (py_eq_str method "initialize") eqn:E1.
    { apply py_eq_str_true in E1. rewrite E1.
      repeat split; try discriminate; congruence. }
    destruct (py_eq_str method "tools/list") eqn:E2.
    { apply py_eq_str_true in E2. rewrite E2.
      repeat split; try discriminate; congruence. }
    destruct (py_eq_str method "notifications/initialized") eqn:E3.
    { apply py_eq_str_true in E3. rewrite E3.
      repeat split; try discriminate; congruence. }
    repeat split; trivial; intros E; apply py_eq_str_true in E; congruence.
Qed.

(** C7 at an unknown method. *)
Lemma method_not_found_example :
  exists log response,
    process_mcp_message (JDict [("id", JInt 3); ("method", JStr "resources/list")])
      remote_down = (log, Ret response)
    /\ exactly_one_of_result_error response = true
    /\ response = rpc_error (JInt 3) (-32601) "Method not found: resources/list".
Proof.
  destruct (response_has_exactly_one_of_result_error
              [("id", JInt 3); ("method", JStr "resources/list")] remote_down)
    as [[log [response [H [Hone [_ [_ [_ [_ Hother]]]]]]]] _].
  - intros E. discriminate E.
  - exists log, response. split; [exact H |]. split; [exact Hone |].
    apply Hother; intros E; discriminate E.
Defined.

(* ================================================================= *)
(** ** Response ids *)

(** C3, as stated, fails: the request below has id 7, its handling raises
    inside [process_mcp_message] ([params] is a list, so [params.get] raises
    [AttributeError]), and the internal-fault response carries id 1. *)
Lemma internal_fault_response_has_id_1 :
  field "id" positional_params_request = Some (JInt 7)
  /\ mcp_handler (MkRequest true (Some positional_params_request)) remote_down =
     ([], Ret (MkResponse
                 (rpc_error (JInt 1) (-32603) "'list' object has no attribute 'get'") 500))
  /\ response_id (mcp_handler (MkRequest true (Some positional_params_request)) remote_down)
     = Some (JInt 1)
  /\ response_id (mcp_handler (MkRequest true (Some positional_params_request)) remote_down)
     <> field "id" positional_params_request.
Proof.
  repeat split. intros H. discriminate H.
Qed.

(** C3, amended. When the body of a [POST /mcp] request parses to a non-empty
    mapping, with [params] a mapping or absent if the method is [tools/call],
    the response has status 200 and its id is the request's id, or 1 when the
    request has none.  A response with status 500 always has id 1 and a
    response with status 400 always has id null, whatever the request held. *)
Theorem response_id_echoes_request_id
    (kvs : list (string * json)) (w : remote)
    (Hnonempty : kvs <> [])
    (Hparams : dict_get kvs "method" (JStr "") = JStr "tools/call" ->
               exists pkvs, dict_get kvs "params" (JDict []) = JDict pkvs) :
  (exists log response,
      mcp_handler_on (Ret (JDict kvs)) w = (log, Ret (MkResponse response 200))
      /\ field "id" response = Some (dict_get kvs "id" (JInt 1)))
  /\ (lookup "id" kvs = None -> dict_get kvs "id" (JInt 1) = JInt 1)
  /\ (forall request_id, lookup "id" kvs = Some request_id ->
        dict_get kvs "id" (JInt 1) = request_id)
  /\ (forall parsed w' log response,
        mcp_handler_on parsed w' = (log, Ret response) ->
        (status response = 500%Z -> field "id" (body response) = Some (JInt 1))
        /\ (status response = 400%Z -> field "id" (body response) = Some JNull)).
Proof.
  split; [| split; [| split]].
  - destruct (process_answers kvs w Hparams) as [log [response [H Hshape]]].
    exists log, response. split.
    + rewrite mcp_handler_on_truthy by (destruct kvs; [contradiction | reflexivity]).
      now rewrite H.
    + destruct Hshape as [[v Hv] | [msg Hv]]; subst response; reflexivity.
  - intros H. unfold dict_get. now rewrite H.
  - intros request_id H. unfold dict_get. now rewrite H.
  - intros parsed w' log response H.
    destruct parsed as [data | e].
    + destruct (truthy data) eqn:Et.
      * rewrite (mcp_handler_on_truthy data w' Et) in H.
        destruct (snd (process_mcp_message data w')); inversion H; subst; simpl;
          split; intros E; solve [discriminate E | reflexivity].
      * rewrite (mcp_handler_on_falsy data w' Et) in H. inversion H; subst; simpl.
        split; intros E; solve [discriminate E | reflexivity].
    + rewrite mcp_handler_on_raise in H. inversion H; subst; simpl.
      split; intros E; solve [discriminate E | reflexivity].
Qed.

(** The amended C3 at a request with a string id. *)
Lemma response_id_example :
  exists log response,
    mcp_handler_on
      (Ret (JDict [("jsonrpc", JStr "2.0"); ("id", JStr "req-9"); ("method", JStr "initialize")]))
      remote_down = (log, Ret (MkResponse response 200))
    /\ field "id" response = Some (JStr "req-9").
Proof.
  assert (Hne : [("jsonrpc", JStr "2.0"); ("id", JStr "req-9");
                 ("method", JStr "initialize")] <> []) by discriminate.
  destruct (response_id_echoes_request_id _ remote_down Hne) as [H _].
  - intros E. discriminate E.
  - exact H.
Defined.

(* ================================================================= *)
(** ** [read_file] *)

Lemma read_file_run (kvs : list (string * json)) (path : json) (cmd : string) (w : remote) :
  lookup "path" kvs = Some path ->
  read_file_cmd path (dict_get kvs "lines" JNull) = Ret cmd ->
  let c := MkCall "/run" "POST" (run_payload (JStr cmd)) in
  handle_tool_call (JStr "read_file") (JDict kvs) w = ([c], Ret (stdout_result (w c))).
Proof.
  intros Hpath Hcmd c. unfold handle_tool_call. rewrite catch_returns.
  unfold handle_tool_call_try. simpl. unfold tool_read_file. unfold_m. simpl.
  rewrite Hpath, Hcmd. simpl. fold c. unfold stdout_result.
  destruct (w c) as [result | e]; simpl; [| reflexivity].
  destruct (stdout_or_error result); reflexivity.
Qed.

Section ReadFile.

Variables (kvs : list (string * json)) (path : string) (w : remote).
Hypothesis Hpath : lookup "path" kvs = Some (JStr path).

(** C4. [read_file] with a [path] string: an integer [lines] below zero gives
    the command [tail -n <abs(lines)> '<path>'], one above zero gives
    [head -n <lines> '<path>'], and no [lines] gives [cat '<path>']; the
    command goes to the remote [/run] endpoint in one POST. *)
Theorem read_file_command :
  let sent := fst (handle_tool_call (JStr "read_file") (JDict kvs) w) in
  let run cmd := [MkCall "/run" "POST" (Some (JDict [("command", JStr cmd)]))] in
  (forall n, lookup "lines" kvs = Some (JInt n) -> (n < 0)%Z ->
     sent = run ("tail -n " ++ str_int (Z.abs n) ++ " '" ++ path ++ "'"))
  /\ (forall n, lookup "lines" kvs = Some (JInt n) -> (0 < n)%Z ->
     sent = run ("head -n " ++ str_int n ++ " '" ++ path ++ "'"))
  /\ (lookup "lines" kvs = None -> sent = run ("cat '" ++ path ++ "'")).
Proof.
  intros sent run. subst sent. repeat split.
  - intros n Hl Hn. erewrite read_file_run; [reflexivity | exact Hpath |].
    unfold dict_get. rewrite Hl. destruct n; try lia. reflexivity.
  - intros n Hl Hn. erewrite read_file_run; [reflexivity | exact Hpath |].
    unfold dict_get. rewrite Hl. destruct n; try lia. reflexivity.
  - intros Hl. erewrite read_file_run; [reflexivity | exact Hpath |].
    unfold dict_get. rewrite Hl. reflexivity.
Qed.

(** C9. [read_file] with [lines] present and equal to 0: the truthiness test
    takes the branch of an absent [lines], so the command is [cat '<path>']
    and the whole call behaves as it does without [lines]. *)
Theorem read_file_zero_lines_is_cat
    (Hlines : lookup "lines" kvs = Some (JInt 0)) :
  fst (handle_tool_call (JStr "read_file") (JDict kvs) w) =
    [MkCall "/run" "POST" (Some (JDict [("command", JStr ("cat '" ++ path ++ "'"))]))]
  /\ read_file_cmd (JStr path) (JInt 0) = Ret ("cat '" ++ path ++ "'")
  /\ read_file_cmd (JStr path) (JInt 0) <> Ret ("head -n 0 '" ++ path ++ "'")
  /\ handle_tool_call (JStr "read_file") (JDict kvs) w =
     handle_tool_call (JStr "read_file") (JDict [("path", JStr path)]) w.
Proof.
  assert (Hcmd : read_file_cmd (JStr path) (dict_get kvs "lines" JNull)
                 = Ret ("cat '" ++ path ++ "'")).
  { unfold dict_get. now rewrite Hlines. }
  repeat split.
  - now rewrite (read_file_run kvs _ _ w Hpath Hcmd).
  - intros H. discriminate H.
  - rewrite (read_file_run kvs _ _ w Hpath Hcmd).
    now rewrite (read_file_run [("path", JStr path)] (JStr path)
                   ("cat '" ++ path ++ "'") w eq_refl eq_refl).
Qed.

End ReadFile.

(** C4 at the spec's example: [lines] is -5. *)
Lemma read_file_tail_example :
  fst (handle_tool_call (JStr "read_file")
         (JDict [("path", JStr "/tmp/x"); ("lines", JInt (-5))]) (remote_exit 0)) =
  [MkCall "/run" "POST" (Some (JDict [("command", JStr "tail -n 5 '/tmp/x'")]))].
Proof.
  exact (proj1 (read_file_command [("path", JStr "/tmp/x"); ("lines", JInt (-5))]
                  "/tmp/x" (remote_exit 0) eq_refl) (-5)%Z eq_refl eq_refl).
Defined.

(** C9 at [/tmp/x]. *)
Lemma read_file_zero_lines_example :
  fst (handle_tool_call (JStr "read_file")
         (JDict [("path", JStr "/tmp/x"); ("lines", JInt 0)]) (remote_exit 0)) =
  [MkCall "/run" "POST" (Some (JDict [("command", JStr "cat '/tmp/x'")]))].
Proof.
  exact (proj1 (read_file_zero_lines_is_cat [("path", JStr "/tmp/x"); ("lines", JInt 0)]
                  "/tmp/x" (remote_exit 0) eq_refl eq_refl)).
Defined.

(* ================================================================= *)
(** ** [write_file] *)

(** [content.replace] with a single quote for [old] does what the spec's
    words say: it rewrites every single quote, and nothing else. *)
Lemma replace_escapes_single_quotes (content : string) :
  str_replace content "'" "'\''" = escape_single_quotes content.
Proof.
  unfold str_replace, escape_single_quotes.
  induction content as [| c rest IH]; [reflexivity |].
  cbn [replace_from concat_map prefix String.length Nat.sub].
  destruct (ascii_dec "'" c) as [E | E].
  - subst c. simpl.
    replace (prefix "" rest) with true by (destruct rest; reflexivity).
    now rewrite IH.
  - rewrite IH.
    destruct (Ascii.eqb c squote) eqn:Ec; [| reflexivity].
    apply Ascii.eqb_eq in Ec. subst c. now destruct E.
Qed.

Lemma write_file_run
    (kvs : list (string * json)) (path content : string) (w : remote) :
  lookup "path" kvs = Some (JStr path) ->
  lookup "content" kvs = Some (JStr content) ->
  let op := if truthy (dict_get kvs "append" (JBool false)) then ">>" else ">" in
  let cmd := "echo '" ++ escape_single_quotes content ++ "' " ++ op ++ " '" ++ path ++ "'" in
  let c := MkCall "/run" "POST" (run_payload (JStr cmd)) in
  handle_tool_call (JStr "write_file") (JDict kvs) w =
  ([c], Ret (write_file_result path (w c))).
Proof.
  intros Hpath Hcontent op cmd c. unfold handle_tool_call. rewrite catch_returns.
  change (handle_tool_call_try (JStr "write_file") (JDict kvs))
    with (tool_write_file (JDict kvs)).
  unfold tool_write_file. cbn [py_getitem py_get].
  rewrite Hpath, bind_lift_ret, Hcontent, !bind_lift_ret.
  cbn [py_replace]. rewrite bind_lift_ret, replace_escapes_single_quotes.
  cbn [py_str]. rewrite bind_call_mac. fold op. fold cmd. fold c.
  unfold write_file_result.
  destruct (w c) as [result | e]; [| reflexivity].
  destruct (py_get result "returncode" (JInt 1)) as [returncode | e];
    [rewrite bind_lift_ret | reflexivity].
  destruct (py_eq_zero returncode); [reflexivity |].
  destruct (py_get result "stderr" (JStr (py_str result))); reflexivity.
Qed.

Lemma truthy_false_values (a : json) :
  truthy a = false <->
  a = JNull \/ a = JBool false \/ a = JInt 0
  \/ (exists f s, a = JFloat f /\ fl_val f = S754_zero s)
  \/ a = JStr "" \/ a = JList [] \/ a = JDict [].
Proof.
  split.
  - destruct a as [| b | z | f | s | xs | kvs]; simpl; intros H.
    + auto.
    + destruct b; [discriminate H | auto].
    + apply negb_false_iff, Z.eqb_eq in H. subst. auto.
    + right; right; right; left. exists f.
      destruct (fl_val f) as [s | | |]; try discriminate H. eauto.
    + apply negb_false_iff, String.eqb_eq in H. subst. auto 10.
    + destruct xs; [auto 10 | discriminate H].
    + destruct kvs; [auto 10 | discriminate H].
  - intros [-> | [-> | [-> | [[f [s [-> Hf]]] | [-> | [-> | ->]]]]]]; simpl; trivial.
    now rewrite Hf.
Qed.

Lemma py_eq_zero_values (v : json) :
  py_eq_zero v = true <->
  v = JInt 0 \/ v = JBool false \/ (exists f s, v = JFloat f /\ fl_val f = S754_zero s).
Proof.
  split.
  - destruct v as [| b | z | f | s | xs | kvs]; simpl; intros H; try discriminate H.
    + destruct b; [discriminate H | auto].
    + apply Z.eqb_eq in H. subst. auto.
    + right; right. exists f.
      destruct (fl_val f) as [s | | |]; try discriminate H. eauto.
  - intros [-> | [-> | [f [s [-> Hf]]]]]; simpl; trivial. now rewrite Hf.
Qed.

Lemma string_app_inv_head (a x y : string) : a ++ x = a ++ y -> x = y.
Proof.
  induction a as [| c a IH]; simpl; intros H; [exact H |].
  inversion H. auto.
Qed.

(** C5. [write_file] with [path] and [content] strings sends one POST to
    [/run] whose command is [echo '<escaped>' >> '<path>'] when [append] is
    true and [echo '<escaped>' > '<path>'] when it is false or absent (for
    another JSON value Python's truth test decides: [>] exactly for the falsy
    ones), [<escaped>] being [content] with every single quote replaced by
    ['\''].  For a remote result that is a mapping, the tool result is the
    text ["Successfully wrote to <path>"] with no [isError] exactly when the
    result's [returncode] equals 0: an integer return code other than 0, or
    none at all, does not; and whenever it is not the success text it has
    [isError] true and the text ["Error: "] followed by the result's
    [stderr], or by the stringified result when it has no [stderr]. *)
Theorem write_file_command_and_result
    (kvs : list (string * json)) (path content : string) (w : remote)
    (Hpath : lookup "path" kvs = Some (JStr path))
    (Hcontent : lookup "content" kvs = Some (JStr content)) :
  let escaped := escape_single_quotes content in
  let sent op :=
    [MkCall "/run" "POST"
       (Some (JDict [("command",
                      JStr ("echo '" ++ escaped ++ "' " ++ op ++ " '" ++ path ++ "'"))]))] in
  let append := dict_get kvs "append" (JBool false) in
  let run := handle_tool_call (JStr "write_file") (JDict kvs) w in
  let success := text_result (JStr ("Successfully wrote to " ++ path)) in
  str_replace content "'" "'\''" = escaped
  /\ (lookup "append" kvs = Some (JBool true) -> fst run = sent ">>")
  /\ (lookup "append" kvs = None \/ lookup "append" kvs = Some (JBool false) ->
      fst run = sent ">")
  /\ (fst run = sent ">" \/ fst run = sent ">>")
  /\ (fst run = sent ">" <->
      append = JNull \/ append = JBool false \/ append = JInt 0
      \/ (exists f s, append = JFloat f /\ fl_val f = S754_zero s)
      \/ append = JStr "" \/ append = JList [] \/ append = JDict [])
  /\ forall c rkvs,
       fst run = [c] ->
       w c = Ret (JDict rkvs) ->
       let returncode := dict_get rkvs "returncode" (JInt 1) in
       let failure :=
         error_result
           (JStr ("Error: " ++ py_str (dict_get rkvs "stderr" (JStr (py_str (JDict rkvs)))))) in
       (forall rc, lookup "returncode" rkvs = Some (JInt rc) ->
          (snd run = Ret success <-> rc = 0%Z))
       /\ (lookup "returncode" rkvs = None -> snd run = Ret failure)
       /\ (snd run = Ret success <->
           returncode = JInt 0 \/ returncode = JBool false
           \/ (exists f s, returncode = JFloat f /\ fl_val f = S754_zero s))
       /\ (snd run = Ret success \/ snd run = Ret failure)
       /\ is_error success = false /\ is_error failure = true.
Proof.
  intros escaped sent append run success.
  split; [apply replace_escapes_single_quotes |].
  pose proof (write_file_run kvs path content w Hpath Hcontent) as Hrun.
  cbv zeta in Hrun. fold run in Hrun.
  remember (MkCall "/run" "POST"
              (run_payload
                 (JStr ("echo '" ++ escape_single_quotes content ++ "' "
                          ++ (if truthy (dict_get kvs "append" (JBool false))
                              then ">>" else ">")
                          ++ " '" ++ path ++ "'")))) as c0 eqn:Hc0.
  assert (Hop : fst run = sent (if truthy append then ">>" else ">"))
    by (rewrite Hrun, Hc0; reflexivity).
  assert (Hdiff : sent ">" <> sent ">>").
  { intros H. inversion H as [H']. apply string_app_inv_head in H'. discriminate H'. }
  split; [| split; [| split; [| split]]].
  - intros H. rewrite Hop. subst append. unfold dict_get. now rewrite H.
  - intros [H | H]; rewrite Hop; subst append; unfold dict_get; now rewrite H.
  - rewrite Hop. destruct (truthy append); auto.
  - rewrite <- truthy_false_values, Hop. destruct (truthy append).
    + split; [intros H; now destruct Hdiff | discriminate].
    + split; reflexivity.
  - intros c rkvs Hc Hw returncode failure.
    assert (Hres : snd run = Ret (if py_eq_zero returncode then success else failure)).
    { rewrite Hrun in Hc. cbn [fst] in Hc. injection Hc as Hc'. subst c.
      rewrite Hrun. cbn [snd]. rewrite Hw.
      unfold write_file_result. cbn [py_get]. fold returncode.
      now destruct (py_eq_zero returncode). }
    assert (Hne : Ret success <> Ret failure) by discriminate.
    assert (Hiff : snd run = Ret success <-> py_eq_zero returncode = true).
    { rewrite Hres. destruct (py_eq_zero returncode).
      - split; reflexivity.
      - split; [intros H; symmetry in H; now destruct Hne | discriminate]. }
    split; [| split; [| split; [| split; [| split]]]].
    + intros rc Hrc. rewrite Hiff. subst returncode. unfold dict_get. rewrite Hrc.
      simpl. apply Z.eqb_eq.
    + intros Hrc. rewrite Hres. subst returncode. unfold dict_get. now rewrite Hrc.
    + rewrite Hiff. apply py_eq_zero_values.
    + rewrite Hres. destruct (py_eq_zero returncode); auto.
    + reflexivity.
    + reflexivity.
Qed.

(** C5 at the spec's example (a quote in [content], no [append], return code
    0) and at an appending call that the remote answers with return code 1. *)
Lemma write_file_example :
  (fst (handle_tool_call (JStr "write_file")
          (JDict [("path", JStr "/tmp/x"); ("content", JStr "it's ok")]) (remote_exit 0)) =
     [MkCall "/run" "POST" (Some (JDict [("command", JStr "echo 'it'\''s ok' > '/tmp/x'")]))]
   /\ snd (handle_tool_call (JStr "write_file")
          (JDict [("path", JStr "/tmp/x"); ("content", JStr "it's ok")]) (remote_exit 0)) =
      Ret (text_result (JStr "Successfully wrote to /tmp/x")))
  /\ (fst (handle_tool_call (JStr "write_file")
          (JDict [("path", JStr "/tmp/x"); ("content", JStr "more");
                  ("append", JBool true)]) (remote_exit 1)) =
     [MkCall "/run" "POST" (Some (JDict [("command", JStr "echo 'more' >> '/tmp/x'")]))]
   /\ snd (handle_tool_call (JStr "write_file")
          (JDict [("path", JStr "/tmp/x"); ("content", JStr "more");
                  ("append", JBool true)]) (remote_exit 1)) =
      Ret (error_result (JStr "Error: boom"))).
Proof.
  split.
  - destruct (write_file_command_and_result
                [("path", JStr "/tmp/x"); ("content", JStr "it's ok")]
                "/tmp/x" "it's ok" (remote_exit 0) eq_refl eq_refl)
      as [_ [_ [Hcall [_ [_ Hres]]]]].
    split; [exact (Hcall (or_introl eq_refl)) |].
    destruct (Hres _ _ (Hcall (or_introl eq_refl)) eq_refl) as [Hrc _].
    exact (proj2 (Hrc 0%Z eq_refl) eq_refl).
  - destruct (write_file_command_and_result
                [("path", JStr "/tmp/x"); ("content", JStr "more"); ("append", JBool true)]
                "/tmp/x" "more" (remote_exit 1) eq_refl eq_refl)
      as [_ [Hcall [_ [_ [_ Hres]]]]].
    split; [exact (Hcall eq_refl) |].
    destruct (Hres _ _ (Hcall eq_refl) eq_refl) as [Hrc [_ [_ [[Hs | Hf] _]]]].
    + apply (Hrc 1%Z eq_refl) in Hs. discriminate Hs.
    + exact Hf.
Defined.

(* ================================================================= *)
(** ** When [isError] is set *)

Lemma run_command_passes_through (arguments : json) (w : remote) :
  returns_without_isError (tool_run_command arguments w).
Proof. unfold returns_without_isError, tool_run_command. repeat step; simpl; trivial. Qed.

Lemma ssh_to_pi_passes_through (arguments : json) (w : remote) :
  returns_without_isError (tool_ssh_to_pi arguments w).
Proof. unfold returns_without_isError, tool_ssh_to_pi. repeat step; simpl; trivial. Qed.

Lemma health_check_passes_through (w : remote) :
  returns_without_isError (tool_health_check w).
Proof. unfold returns_without_isError, tool_health_check. repeat step; simpl; trivial. Qed.

Lemma list_files_passes_through (arguments : json) (w : remote) :
  returns_without_isError (tool_list_files arguments w).
Proof. unfold returns_without_isError, tool_list_files. repeat step; simpl; trivial. Qed.

Lemma read_file_passes_through (arguments : json) (w : remote) :
  returns_without_isError (tool_read_file arguments w).
Proof. unfold returns_without_isError, tool_read_file. repeat step; simpl; trivial. Qed.

Lemma get_system_info_passes_through (w : remote) :
  returns_without_isError (tool_get_system_info w).
Proof. unfold returns_without_isError, tool_get_system_info. repeat step; simpl; trivial. Qed.

(** [write_file] is the one tool that reads the return code. *)
Lemma write_file_checks_returncode (arguments : json) (w : remote) :
  match snd (tool_write_file arguments w) with
  | Ret v =>
      is_error v = true <->
      exists c, fst (tool_write_file arguments w) = [c]
                /\ remote_signaled_failure (w c) = true
  | Raise _ => True
  end.
Proof.
  unfold tool_write_file.
  destruct (py_getitem arguments "path") as [path | e];
    [rewrite bind_lift_ret | simpl; trivial].
  destruct (py_getitem arguments "content") as [content | e];
    [rewrite bind_lift_ret | simpl; trivial].
  destruct (py_get arguments "append" (JBool false)) as [append | e];
    [rewrite bind_lift_ret | simpl; trivial].
  destruct (py_replace content "'" "'\''") as [escaped | e];
    [rewrite bind_lift_ret | simpl; trivial].
  rewrite bind_call_mac.
  match goal with |- context [w ?c] => remember c as c0 eqn:Hc0 end. clear Hc0.
  destruct (w c0) as [result | e] eqn:Hw; [| simpl; trivial].
  destruct result as [| | | | | | rkvs]; try (simpl; trivial; fail).
  cbn [py_get]. rewrite bind_lift_ret.
  assert (Hfail : remote_signaled_failure (Ret (JDict rkvs))
                  = negb (py_eq_zero (dict_get rkvs "returncode" (JInt 1)))).
  { unfold remote_signaled_failure, field, dict_get.
    now destruct (lookup "returncode" rkvs). }
  destruct (py_eq_zero (dict_get rkvs "returncode" (JInt 1))) eqn:Ez.
  - simpl. split; [discriminate |]. intros [c [Hc Hf]]. inversion Hc. subst c.
    rewrite Hw, Hfail in Hf. discriminate Hf.
  - rewrite bind_lift_ret. simpl. split; [| trivial].
    intros _. eexists. split; [reflexivity |]. now rewrite Hw, Hfail.
Qed.

Lemma passes_through_iff (name : json) (run : list call * outcome json)
    (w : remote) (log : list call) :
  returns_without_isError run ->
  registered name = true ->
  name <> JStr "write_file" ->
  is_error (match snd run with
            | Ret v => v
            | Raise e => error_result (JStr ("Error: " ++ str_exn e))
            end) = true <->
  (exists e, snd run = Raise e)
  \/ registered name = false
  \/ (name = JStr "write_file"
      /\ exists c, log = [c] /\ remote_signaled_failure (w c) = true).
Proof.
  unfold returns_without_isError. intros P R Hname.
  destruct (snd run) as [v | e].
  - rewrite P. split; [discriminate |].
    intros [[e He] | [H | [H _]]]; [discriminate He | congruence | contradiction].
  - split; [eauto | reflexivity].
Qed.

(** C1, as stated, fails in both directions.  [run_command] hands back a
    remote result whose return code is 1 without [isError]; an unknown tool
    name gives [isError] although no remote call was made at all. *)
Lemma remote_failure_without_isError :
  handle_tool_call (JStr "run_command") (JDict [("command", JStr "false")]) (remote_exit 1)
  = ([MkCall "/run" "POST" (Some (JDict [("command", JStr "false")]))],
     Ret (text_result
            (JStr (json_dumps_indent2
                     (JDict [("stdout", JStr ""); ("stderr", JStr "boom");
                             ("returncode", JInt 1)])))))
  /\ remote_signaled_failure
       (remote_exit 1 (MkCall "/run" "POST" (Some (JDict [("command", JStr "false")]))))
     = true
  /\ is_error
       (text_result
          (JStr (json_dumps_indent2
                   (JDict [("stdout", JStr ""); ("stderr", JStr "boom");
                           ("returncode", JInt 1)]))))
     = false
  /\ handle_tool_call (JStr "reboot") (JDict []) (remote_exit 0)
     = ([], Ret (error_result (JStr "Unknown tool: reboot")))
  /\ is_error (error_result (JStr "Unknown tool: reboot")) = true.
Proof. repeat split. Qed.

(** C1, amended. [handle_tool_call] always returns, and its result has
    [isError] set exactly when the call ended on one of its own failure paths:
    an exception was raised while the call was built or executed (a missing
    argument, a failure inside [call_mac], a remote result that is not a
    mapping where one is needed), the tool name is not registered, or the tool
    is [write_file] and the remote result's return code is absent or not 0.
    The other six tools hand the remote result back without [isError],
    whatever its return code. *)
Theorem isError_iff_own_failure_path (name arguments : json) (w : remote) :
  let run := handle_tool_call_try name arguments w in
  exists v,
    handle_tool_call name arguments w = (fst run, Ret v)
    /\ (is_error v = true <->
          (exists e, snd run = Raise e)
          \/ registered name = false
          \/ (name = JStr "write_file"
              /\ exists c, fst run = [c] /\ remote_signaled_failure (w c) = true)).
Proof.
  intros run. unfold handle_tool_call. rewrite catch_returns. fold run.
  eexists. split; [reflexivity |].
  destruct (Bool.bool_dec (registered name) true) as [R | R].
  - pose proof R as R'. apply registered_true in R'. destruct R' as [s [Hin Hs]].
    subst name. simpl in Hin.
    destruct Hin as [<- | [<- | [<- | [<- | [<- | [<- | [<- | []]]]]]]].
    + apply passes_through_iff; [apply run_command_passes_through | exact R | discriminate].
    + apply passes_through_iff; [apply ssh_to_pi_passes_through | exact R | discriminate].
    + apply passes_through_iff; [apply health_check_passes_through | exact R | discriminate].
    + apply passes_through_iff; [apply list_files_passes_through | exact R | discriminate].
    + apply passes_through_iff; [apply read_file_passes_through | exact R | discriminate].
    + pose proof (write_file_checks_returncode arguments w) as P.
      change (tool_write_file arguments w) with run in P.
      destruct (snd run) as [v | e].
      * rewrite P. split; [intros H; right; right; split; [reflexivity | exact H] |].
        intros [[e He] | [H | [_ H]]]; [discriminate He | discriminate H | exact H].
      * split; [eauto | reflexivity].
    + apply passes_through_iff;
        [apply get_system_info_passes_through | exact R | discriminate].
  - apply not_true_is_false in R.
    subst run. rewrite (unknown_tool_try name arguments R). simpl.
    split; [auto | reflexivity].
Qed.

(* ================================================================= *)
(** ** A body that is not valid JSON *)

(** C2. A [POST /mcp] request with a JSON Content-Type and a body that is not
    valid JSON: [request.get_json()] raises [BadRequest], the handler's own
    [except Exception] catches it, and the answer is status 500 with code
    -32603, not status 400 with code -32700. *)
Theorem invalid_json_body_is_answered_500 (w : remote) :
  mcp_handler (MkRequest true None) w =
  ([], Ret (MkResponse
              (rpc_error (JInt 1) (-32603)
                 "400 Bad Request: The browser (or proxy) sent a request that this server could not understand.")
              500))
  /\ (forall parsed log response,
        mcp_handler_on parsed w = (log, Ret response) ->
        status response = 400%Z ->
        exists data, parsed = Ret data /\ truthy data = false).
Proof.
  split; [reflexivity |].
  intros parsed log response H Hs. destruct parsed as [data | e].
  - exists data. split; [reflexivity |].
    destruct (truthy data) eqn:Et; [| reflexivity].
    rewrite (mcp_handler_on_truthy data w Et) in H.
    destruct (snd (process_mcp_message data w)); inversion H; subst; discriminate Hs.
  - rewrite mcp_handler_on_raise in H. inversion H; subst. discriminate Hs.
Qed.

(* ================================================================= *)
(** ** The liveness route *)

Lemma probe_mac_run (w : remote) :
  probe_mac w =
  ([MkCall "/health" "GET" None],
   Ret (match w (MkCall "/health" "GET" None) with
        | Ret (JDict kvs) =>
            if py_eq_str (dict_get kvs "status" JNull) "ok" then "connected" else "error"
        | _ => "unreachable"
        end)).
Proof.
  unfold probe_mac, catch. rewrite bind_call_mac.
  destruct (w (MkCall "/health" "GET" None)) as [result | e]; [| reflexivity].
  destruct result; reflexivity.
Qed.

(** X1. [GET /] never fails: it makes exactly one request, a GET of
    [/health] without a body, and answers status 200 with the fixed fields
    and the count of seven tools.  [mac_status] is ["connected"] exactly when
    the remote's reply is a mapping whose [status] is the string ["ok"],
    ["unreachable"] exactly when the request raised or the reply is not a
    mapping, and ["error"] in every other case. *)
Theorem health_reports_mac_status (mac_funnel_url : string) (w : remote) :
  let c := MkCall "/health" "GET" None in
  exists mac_status,
    health mac_funnel_url w =
    ([c],
     Ret (MkResponse
            (JDict [("status", JStr "healthy");
                    ("service", JStr "mac-studio-mcp");
                    ("version", JStr "1.0.0");
                    ("mac_funnel_url", JStr mac_funnel_url);
                    ("mac_status", JStr mac_status);
                    ("tools", JInt 7)])
            200))
    /\ (mac_status = "connected" <->
        exists kvs, w c = Ret (JDict kvs) /\ lookup "status" kvs = Some (JStr "ok"))
    /\ (mac_status = "unreachable" <->
        (exists e, w c = Raise e) \/ (exists r, w c = Ret r /\ forall kvs, r <> JDict kvs))
    /\ (mac_status = "connected" \/ mac_status = "error" \/ mac_status = "unreachable").
Proof.
  intros c. unfold health, bind. rewrite probe_mac_run. fold c. unfold ret.
  eexists. split; [reflexivity |].
  destruct (w c) as [r | e].
  - destruct r as [| | | | | | kvs];
      try (split; [split; [discriminate | intros [kvs [H _]]; discriminate H] |];
           split; [split; [intros _; right; eexists; split;
                             [reflexivity | intros kvs; discriminate]
                          | reflexivity]
                  | auto]).
    destruct (py_eq_str (dict_get kvs "status" JNull) "ok") eqn:E.
    + apply py_eq_str_true in E. split; [| split].
      * split; [intros _ | reflexivity]. exists kvs. split; [reflexivity |].
        unfold dict_get in E. destruct (lookup "status" kvs); [now subst | discriminate E].
      * split; [discriminate |].
        intros [[e H] | [r [H Hr]]]; [discriminate H |].
        inversion H. subst r. now destruct (Hr kvs).
      * auto.
    + split; [| split].
      * split; [discriminate |]. intros [kvs' [H Hs]]. inversion H. subst kvs'.
        unfold dict_get in E. rewrite Hs in E. discriminate E.
      * split; [discriminate |].
        intros [[e H] | [r [H Hr]]]; [discriminate H |].
        inversion H. subst r. now destruct (Hr kvs).
      * auto.
  - split; [split; [discriminate | intros [kvs [H _]]; discriminate H] |].
    split; [split; [eauto | reflexivity] | auto].
Qed.

(* ================================================================= *)
(** ** The tools one by one *)

Lemma stdout_or_error_dict (reply : list (string * json)) :
  stdout_or_error (JDict reply) = Ret (fallback_text reply).
Proof.
  unfold stdout_or_error, fallback_text, py_get, dict_get.
  destruct (lookup "stdout" reply); destruct (lookup "error" reply); reflexivity.
Qed.

Lemma stdout_or_error_not_dict (r : json) :
  (forall kvs, r <> JDict kvs) ->
  stdout_or_error r = Raise (AttributeError (type_name r) "get").
Proof.
  intros H. destruct r; try reflexivity. now destruct (H kvs).
Qed.

(** What the three [stdout] tools answer, by the remote's behaviour. *)
Lemma stdout_result_cases (reply : outcome json) :
  (forall r, reply = Ret (JDict r) -> stdout_result reply = text_result (fallback_text r))
  /\ (forall r, reply = Ret r -> (forall kvs, r <> JDict kvs) ->
        stdout_result reply =
        error_result (JStr ("Error: '" ++ type_name r ++ "' object has no attribute 'get'")))
  /\ (forall e, reply = Raise e ->
        stdout_result reply = error_result (JStr ("Error: " ++ str_exn e))).
Proof.
  repeat split.
  - intros r ->. unfold stdout_result. now rewrite stdout_or_error_dict.
  - intros r -> H. unfold stdout_result. now rewrite (stdout_or_error_not_dict r H).
  - intros e ->. reflexivity.
Qed.

Lemma stdout_tail_run (c : call) (w : remote) :
  bind (call_mac (endpoint c) (verb c) (payload c))
       (fun result => text <- lift (stdout_or_error result) ;; ret (text_result text)) w
  = ([c], match w c with
          | Ret result =>
              match stdout_or_error result with
              | Ret text => Ret (text_result text)
              | Raise e => Raise e
              end
          | Raise e => Raise e
          end).
Proof.
  rewrite bind_call_mac. destruct c as [ep v d]. simpl.
  destruct (w (MkCall ep v d)) as [result | e]; [| reflexivity].
  destruct (stdout_or_error result); reflexivity.
Qed.

Lemma catch_stdout (c : call) (w : remote) (m : M json) :
  m w = ([c], match w c with
              | Ret result =>
                  match stdout_or_error result with
                  | Ret text => Ret (text_result text)
                  | Raise e => Raise e
                  end
              | Raise e => Raise e
              end) ->
  catch m (fun e => ret (error_result (JStr ("Error: " ++ str_exn e)))) w
  = ([c], Ret (stdout_result (w c))).
Proof.
  intros H. rewrite catch_returns, H. unfold stdout_result. simpl.
  destruct (w c) as [result | e]; [| reflexivity].
  destruct (stdout_or_error result); reflexivity.
Qed.

(** X2. [run_command] and [ssh_to_pi] with a [command]: the command goes
    out unchanged, whatever JSON value it is, in one POST to [/run], or to
    [/ssh] with [host] and [user] defaulted to [192.168.25.225] and
    [jstewartrr] when absent.  Every reply, of any shape, comes back
    pretty-printed without [isError]; only an exception of the request gives
    [isError]. *)
Theorem command_tools_forward_and_print
    (kvs : list (string * json)) (cmd : json) (w : remote)
    (Hcmd : lookup "command" kvs = Some cmd) :
  let printed c :=
    match w c with
    | Ret r => text_result (JStr (json_dumps_indent2 r))
    | Raise e => error_result (JStr ("Error: " ++ str_exn e))
    end in
  let run := MkCall "/run" "POST" (Some (JDict [("command", cmd)])) in
  let ssh :=
    MkCall "/ssh" "POST"
      (Some (JDict [("command", cmd);
                    ("host", dict_get kvs "host" (JStr "192.168.25.225"));
                    ("user", dict_get kvs "user" (JStr "jstewartrr"))])) in
  handle_tool_call (JStr "run_command") (JDict kvs) w = ([run], Ret (printed run))
  /\ handle_tool_call (JStr "ssh_to_pi") (JDict kvs) w = ([ssh], Ret (printed ssh)).
Proof.
  intros printed run ssh. subst printed. split.
  - unfold handle_tool_call. rewrite catch_returns.
    change (handle_tool_call_try (JStr "run_command") (JDict kvs))
      with (tool_run_command (JDict kvs)).
    unfold tool_run_command. cbn [py_getitem]. rewrite Hcmd, bind_lift_ret, bind_call_mac.
    change (MkCall "/run" "POST" (run_payload cmd)) with run.
    destruct (w run); reflexivity.
  - unfold handle_tool_call. rewrite catch_returns.
    change (handle_tool_call_try (JStr "ssh_to_pi") (JDict kvs))
      with (tool_ssh_to_pi (JDict kvs)).
    unfold tool_ssh_to_pi. cbn [py_getitem py_get].
    rewrite Hcmd, !bind_lift_ret, bind_call_mac.
    fold ssh. destruct (w ssh); reflexivity.
Qed.

(** X2 at an [ssh_to_pi] call that names the host and leaves the user out. *)
Lemma ssh_to_pi_example :
  fst (handle_tool_call (JStr "ssh_to_pi")
         (JDict [("command", JStr "uptime"); ("host", JStr "10.0.0.2")]) remote_down)
  = [MkCall "/ssh" "POST"
       (Some (JDict [("command", JStr "uptime"); ("host", JStr "10.0.0.2");
                     ("user", JStr "jstewartrr")]))].
Proof.
  exact (f_equal fst
           (proj2 (command_tools_forward_and_print
                     [("command", JStr "uptime"); ("host", JStr "10.0.0.2")]
                     (JStr "uptime") remote_down eq_refl))).
Defined.

(** X3. [list_files] takes any mapping of arguments: it sends one POST to
    [/run] with the command [ls -la <path>], the path put in as it is, without
    quotes, and [~] when there is none.  From a reply that is a mapping the
    text is its [stdout] if it has one (whatever the value), else its [error],
    else the whole reply as [str] prints it, never with [isError]; a reply
    that is not a mapping, or a failed request, gives [isError]. *)
Theorem list_files_command_and_text (kvs : list (string * json)) (w : remote) :
  let path := dict_get kvs "path" (JStr "~") in
  let c := MkCall "/run" "POST" (Some (JDict [("command", JStr ("ls -la " ++ py_str path))])) in
  let run := handle_tool_call (JStr "list_files") (JDict kvs) w in
  fst run = [c]
  /\ (lookup "path" kvs = None -> py_str path = "~")
  /\ (forall p, lookup "path" kvs = Some (JStr p) -> py_str path = p)
  /\ (forall r, w c = Ret (JDict r) ->
        snd run = Ret (text_result (fallback_text r))
        /\ is_error (text_result (fallback_text r)) = false)
  /\ (forall r, w c = Ret r -> (forall kvs', r <> JDict kvs') ->
        snd run =
        Ret (error_result (JStr ("Error: '" ++ type_name r ++ "' object has no attribute 'get'"))))
  /\ (forall e, w c = Raise e ->
        snd run = Ret (error_result (JStr ("Error: " ++ str_exn e)))).
Proof.
  intros path c run.
  assert (Hrun : run = ([c], Ret (stdout_result (w c)))).
  { subst run. unfold handle_tool_call. apply catch_stdout.
    change (handle_tool_call_try (JStr "list_files") (JDict kvs))
      with (tool_list_files (JDict kvs)).
    unfold tool_list_files. cbn [py_get]. rewrite bind_lift_ret.
    exact (stdout_tail_run c w). }
  rewrite Hrun. cbn [fst snd].
  destruct (stdout_result_cases (w c)) as [Hd [Hn He]].
  split; [reflexivity |]. split; [| split; [| split; [| split]]].
  - intros H. subst path. unfold dict_get. now rewrite H.
  - intros p H. subst path. unfold dict_get. now rewrite H.
  - intros r H. split; [now rewrite (Hd r H) | reflexivity].
  - intros r H Hr. now rewrite (Hn r H Hr).
  - intros e H. now rewrite (He e H).
Qed.


(** X4. Arguments that are not a mapping (null, a list, a string, a number):
    the five tools that read their arguments answer [isError] with an
    ["Error: ..."] text and send nothing to the remote, while [health_check]
    and [get_system_info], which never look at their arguments, behave as
    with an empty mapping and send their one fixed request. *)
Theorem arguments_not_a_mapping (arguments : json) (w : remote)
    (Hnot : forall kvs, arguments <> JDict kvs) :
  (forall s,
      In s ["run_command"; "ssh_to_pi"; "list_files"; "read_file"; "write_file"] ->
      exists msg,
        handle_tool_call (JStr s) arguments w =
        ([], Ret (error_result (JStr ("Error: " ++ msg)))))
  /\ handle_tool_call (JStr "health_check") arguments w =
     handle_tool_call (JStr "health_check") (JDict []) w
  /\ handle_tool_call (JStr "get_system_info") arguments w =
     handle_tool_call (JStr "get_system_info") (JDict []) w
  /\ fst (handle_tool_call (JStr "health_check") arguments w) =
     [MkCall "/health" "GET" None]
  /\ fst (handle_tool_call (JStr "get_system_info") arguments w) =
     [MkCall "/run" "POST" (Some (JDict [("command", JStr system_info_cmd)]))].
Proof.
  split; [| split; [reflexivity | split; [reflexivity | split]]].
  - intros s Hs. simpl in Hs.
    destruct arguments as [| | | | | | kvs]; try (now destruct (Hnot kvs));
      destruct Hs as [<- | [<- | [<- | [<- | [<- | []]]]]];
      eexists; reflexivity.
  - unfold handle_tool_call. rewrite catch_returns.
    change (handle_tool_call_try (JStr "health_check") arguments) with tool_health_check.
    unfold tool_health_check. rewrite bind_call_mac.
    now destruct (w (MkCall "/health" "GET" None)).
  - unfold handle_tool_call. rewrite catch_returns.
    change (handle_tool_call_try (JStr "get_system_info") arguments)
      with tool_get_system_info.
    unfold tool_get_system_info. rewrite bind_call_mac.
    destruct (w (MkCall "/run" "POST" (run_payload (JStr system_info_cmd))))
      as [result | e]; [| reflexivity].
    now destruct (stdout_or_error result).
Qed.

(** X4 at [arguments] null. *)
Lemma null_arguments_example :
  handle_tool_call (JStr "read_file") JNull remote_down =
  ([], Ret (error_result (JStr "Error: 'NoneType' object is not subscriptable")))
  /\ fst (handle_tool_call (JStr "get_system_info") JNull remote_down) =
     [MkCall "/run" "POST" (Some (JDict [("command", JStr system_info_cmd)]))].
Proof.
  assert (Hnot : forall kvs, JNull <> JDict kvs) by (intros kvs H; discriminate H).
  destruct (arguments_not_a_mapping JNull remote_down Hnot) as [_ [_ [_ [_ H]]]].
  split; [reflexivity | exact H].
Defined.

(* ================================================================= *)
(** ** Requests to the remote *)

Ltac log_step :=
  first
    [ step
    | match goal with
      | |- context [(if ?b then _ else _) ?w] => destruct b
      end ].

Ltac close_log :=
  simpl; solve [left; reflexivity | right; eexists; split; reflexivity].

Lemma tool_logs (arguments : json) (w : remote) :
  at_most_one_known (fst (tool_run_command arguments w))
  /\ at_most_one_known (fst (tool_ssh_to_pi arguments w))
  /\ at_most_one_known (fst (tool_health_check w))
  /\ at_most_one_known (fst (tool_list_files arguments w))
  /\ at_most_one_known (fst (tool_read_file arguments w))
  /\ at_most_one_known (fst (tool_write_file arguments w))
  /\ at_most_one_known (fst (tool_get_system_info w)).
Proof.
  unfold at_most_one_known.
  repeat split.
  - unfold tool_run_command. repeat log_step; close_log.
  - unfold tool_ssh_to_pi. repeat log_step; close_log.
  - unfold tool_health_check. repeat log_step; close_log.
  - unfold tool_list_files. repeat log_step; close_log.
  - unfold tool_read_file. repeat log_step; close_log.
  - unfold tool_write_file. repeat log_step; close_log.
  - unfold tool_get_system_info. repeat log_step; close_log.
Qed.

Lemma handle_tool_call_log (name arguments : json) (w : remote) :
  at_most_one_known (fst (handle_tool_call name arguments w))
  /\ (fst (handle_tool_call name arguments w) <> [] -> registered name = true).
Proof.
  unfold handle_tool_call. rewrite catch_returns. cbn [fst].
  destruct (Bool.bool_dec (registered name) true) as [R | R].
  - split; [| intros _; exact R].
    apply registered_true in R. destruct R as [s [Hin ->]]. simpl in Hin.
    destruct (tool_logs arguments w) as [H1 [H2 [H3 [H4 [H5 [H6 H7]]]]]].
    destruct Hin as [<- | [<- | [<- | [<- | [<- | [<- | [<- | []]]]]]]]; assumption.
  - apply not_true_is_false in R. rewrite (unknown_tool_try name arguments R).
    split; [left; reflexivity | intros H; now destruct H].
Qed.

Lemma process_log (data : json) (w : remote) :
  at_most_one_known (fst (process_mcp_message data w))
  /\ (fst (process_mcp_message data w) <> [] ->
      exists kvs pkvs,
        data = JDict kvs
        /\ dict_get kvs "method" (JStr "") = JStr "tools/call"
        /\ dict_get kvs "params" (JDict []) = JDict pkvs
        /\ registered (dict_get pkvs "name" (JStr "")) = true).
Proof.
  assert (Hnil : forall o : outcome json,
             process_mcp_message data w = ([], o) ->
             at_most_one_known (fst (process_mcp_message data w))
             /\ (fst (process_mcp_message data w) <> [] ->
                 exists kvs pkvs,
                   data = JDict kvs
                   /\ dict_get kvs "method" (JStr "") = JStr "tools/call"
                   /\ dict_get kvs "params" (JDict []) = JDict pkvs
                   /\ registered (dict_get pkvs "name" (JStr "")) = true)).
  { intros o H. rewrite H. split; [left; reflexivity | intros E; now destruct E]. }
  destruct data as [| | | | | | kvs]; try (eapply Hnil; reflexivity).
  destruct (py_eq_str (dict_get kvs "method" (JStr "")) "tools/call") eqn:Ecall.
  - apply py_eq_str_true in Ecall.
    destruct (dict_get kvs "params" (JDict [])) as [| | | | | | pkvs] eqn:Ep;
      try (eapply Hnil; rewrite process_tools_call_bad_params;
           [reflexivity | exact Ecall | intros pkvs; rewrite Ep; discriminate]).
    destruct (process_tools_call kvs pkvs w Ecall Ep) as [log [v [Hv H]]].
    rewrite H. cbn [fst].
    destruct (handle_tool_call_log (dict_get pkvs "name" (JStr ""))
                (dict_get pkvs "arguments" (JDict [])) w) as [H1 H2].
    rewrite Hv in H1, H2. cbn [fst] in H1, H2.
    split; [exact H1 |]. intros Hne. exists kvs, pkvs. auto.
  - eapply Hnil. exact (process_other_method kvs w Ecall).
Qed.

(** X5. Every request to [POST /mcp], whatever its body and whatever the
    remote does, leads to at most one request to the remote, and that one is
    a POST with a body to [/run] or [/ssh] or a GET without a body to
    [/health].  The remote is contacted only for a body that is a mapping
    with method [tools/call], a mapping for [params] and a registered tool
    name: [initialize], [tools/list], notifications, unknown methods, unknown
    tools and unparsable bodies never reach it. *)
Theorem remote_contacted_at_most_once (parsed : outcome json) (w : remote) :
  at_most_one_known (fst (mcp_handler_on parsed w))
  /\ (fst (mcp_handler_on parsed w) <> [] ->
      exists kvs pkvs,
        parsed = Ret (JDict kvs)
        /\ dict_get kvs "method" (JStr "") = JStr "tools/call"
        /\ dict_get kvs "params" (JDict []) = JDict pkvs
        /\ registered (dict_get pkvs "name" (JStr "")) = true).
Proof.
  destruct parsed as [data | e].
  - destruct (truthy data) eqn:Et.
    + rewrite (mcp_handler_on_truthy data w Et). cbn [fst].
      destruct (process_log data w) as [H1 H2]. split; [exact H1 |].
      intros Hne. destruct (H2 Hne) as [kvs [pkvs [Hd H]]].
      exists kvs, pkvs. subst data. auto.
    + rewrite (mcp_handler_on_falsy data w Et).
      split; [left; reflexivity | intros E; now destruct E].
  - rewrite mcp_handler_on_raise.
    split; [left; reflexivity | intros E; now destruct E].
Qed.

(* ================================================================= *)
(** ** The catalog and the dispatcher agree *)

Lemma field_name_tool (n d : string) (p : list (string * json)) (r : list string) :
  field "name" (tool n d p r) = Some (JStr n).
Proof. reflexivity. Qed.

Lemma find_tool_registered (s : string) :
  if registered (JStr s) then find_tool s <> None else find_tool s = None.
Proof.
  unfold registered, find_tool, TOOLS, tool_names.
  cbn [find existsb]. rewrite !field_name_tool. cbn [py_eq_str].
  rewrite (String.eqb_sym s "run_command"), (String.eqb_sym s "ssh_to_pi"),
    (String.eqb_sym s "health_check"), (String.eqb_sym s "list_files"),
    (String.eqb_sym s "read_file"), (String.eqb_sym s "write_file"),
    (String.eqb_sym s "get_system_info").
  repeat match goal with
         | |- context [String.eqb ?a s] => destruct (String.eqb a s)
         end; cbn [orb]; solve [reflexivity | discriminate].
Qed.

(** What [write_file] returns is the success text or an ["Error: ..."]. *)
Lemma write_file_returns (arguments : json) (w : remote) :
  match snd (tool_write_file arguments w) with
  | Ret v => is_error v = false \/ exists t, v = error_result (JStr ("Error: " ++ t))
  | Raise _ => True
  end.
Proof.
  unfold tool_write_file. repeat log_step; simpl; eauto.
Qed.

Lemma not_the_unknown_tool_answer (s : string) (o : outcome json) :
  match o with
  | Ret v => is_error v = false \/ exists t, v = error_result (JStr ("Error: " ++ t))
  | Raise _ => True
  end ->
  Ret (match o with
       | Ret v => v
       | Raise e => error_result (JStr ("Error: " ++ str_exn e))
       end) <> Ret (error_result (JStr ("Unknown tool: " ++ s))).
Proof.
  intros H E. inversion E as [E']. clear E. destruct o as [v | e].
  - subst v. destruct H as [H | [t H]]; [discriminate H | discriminate H].
  - discriminate E'.
Qed.

Lemma passes_through_shape (run : list call * outcome json) :
  returns_without_isError run ->
  match snd run with
  | Ret v => is_error v = false \/ exists t, v = error_result (JStr ("Error: " ++ t))
  | Raise _ => True
  end.
Proof.
  unfold returns_without_isError. destruct (snd run); auto.
Qed.

(** X6. The catalog and the dispatcher name the same tools: a name has a
    descriptor in [TOOLS] exactly when [handle_tool_call] has a branch for it,
    that is, when the answer is not the ["Unknown tool: <name>"] error,
    whatever the arguments and the remote's behaviour. *)
Theorem catalog_matches_dispatcher (s : string) (arguments : json) (w : remote) :
  find_tool s <> None <->
  snd (handle_tool_call (JStr s) arguments w)
  <> Ret (error_result (JStr ("Unknown tool: " ++ s))).
Proof.
  pose proof (find_tool_registered s) as Hf.
  destruct (registered (JStr s)) eqn:R.
  - split; [intros _ | intros _; exact Hf].
    unfold handle_tool_call. rewrite catch_returns. cbn [snd].
    apply not_the_unknown_tool_answer.
    apply registered_true in R. destruct R as [s' [Hin Hs]].
    inversion Hs. subst s'. simpl in Hin.
    destruct Hin as [<- | [<- | [<- | [<- | [<- | [<- | [<- | []]]]]]]].
    + apply passes_through_shape, run_command_passes_through.
    + apply passes_through_shape, ssh_to_pi_passes_through.
    + apply passes_through_shape, health_check_passes_through.
    + apply passes_through_shape, list_files_passes_through.
    + apply passes_through_shape, read_file_passes_through.
    + apply (write_file_returns arguments w).
    + apply passes_through_shape, get_system_info_passes_through.
  - rewrite (handle_tool_call_unknown (JStr s) arguments w R). cbn [snd py_str].
    split; [intros H; now destruct H | intros H; now destruct H].
Qed.


Lemma read_file_cmd_raises_type_error (path lines : json) (e : exn) :
  read_file_cmd path lines = Raise e -> exists msg, e = TypeError msg.
Proof.
  unfold read_file_cmd. destruct (truthy lines); [| discriminate].
  destruct lines; simpl; try discriminate;
    try (intros H; inversion H; eauto; fail);
    repeat match goal with
           | |- context [if ?b then _ else _] => destruct b
           end; discriminate.
Qed.

Lemma py_replace_raises_attribute_error (v : json) (old new : string) (e : exn) :
  py_replace v old new = Raise e -> exists ty attr, e = AttributeError ty attr.
Proof.
  destruct v; simpl; intros H; inversion H; eauto.
Qed.

Ltac no_key_error :=
  let k := fresh "k" in
  let H := fresh "H" in
  intros [k H]; revert H;
  repeat log_step; simpl; intros H; try discriminate H; try congruence.

(** X7. The required arguments of the catalog are the ones the code
    requires.  For a registered tool called with a mapping of arguments, the
    call stops on a [KeyError] before any request to the remote exactly when
    a key its descriptor lists under [required] is missing; the answer is then
    [isError] with the text ["Error: "] and the quoted key. *)
Theorem missing_required_argument
    (s : string) (kvs : list (string * json)) (w : remote)
    (Hs : In s tool_names) :
  ((exists k, In k (required_args s) /\ lookup k kvs = None) <->
   (exists k, handle_tool_call_try (JStr s) (JDict kvs) w = ([], Raise (KeyError k))))
  /\ (forall k, handle_tool_call_try (JStr s) (JDict kvs) w = ([], Raise (KeyError k)) ->
        handle_tool_call (JStr s) (JDict kvs) w =
        ([], Ret (error_result (JStr ("Error: " ++ repr_str k))))).
Proof.
  split.
  2: { intros k H. unfold handle_tool_call. rewrite catch_returns, H. reflexivity. }
  simpl in Hs.
  destruct Hs as [<- | [<- | [<- | [<- | [<- | [<- | [<- | []]]]]]]].
  - change (handle_tool_call_try (JStr "run_command") (JDict kvs))
      with (tool_run_command (JDict kvs)).
    change (required_args "run_command") with ["command"].
    unfold tool_run_command. cbn [py_getitem].
    destruct (lookup "command" kvs) as [cmd |] eqn:E.
    + split; [intros [k [[<- | []] Hk]]; rewrite E in Hk; discriminate Hk | no_key_error].
    + split; [intros _; exists "command"; reflexivity |].
      intros _. exists "command". split; [left; reflexivity | exact E].
  - change (handle_tool_call_try (JStr "ssh_to_pi") (JDict kvs))
      with (tool_ssh_to_pi (JDict kvs)).
    change (required_args "ssh_to_pi") with ["command"].
    unfold tool_ssh_to_pi. cbn [py_getitem py_get].
    destruct (lookup "command" kvs) as [cmd |] eqn:E.
    + split; [intros [k [[<- | []] Hk]]; rewrite E in Hk; discriminate Hk | no_key_error].
    + split; [intros _; exists "command"; reflexivity |].
      intros _. exists "command". split; [left; reflexivity | exact E].
  - change (handle_tool_call_try (JStr "health_check") (JDict kvs))
      with tool_health_check.
    change (required_args "health_check") with (@nil string).
    unfold tool_health_check.
    split; [intros [k [[] _]] | no_key_error].
  - change (handle_tool_call_try (JStr "list_files") (JDict kvs))
      with (tool_list_files (JDict kvs)).
    change (required_args "list_files") with (@nil string).
    unfold tool_list_files. cbn [py_get].
    split; [intros [k [[] _]] | no_key_error].
  - change (handle_tool_call_try (JStr "read_file") (JDict kvs))
      with (tool_read_file (JDict kvs)).
    change (required_args "read_file") with ["path"].
    unfold tool_read_file. cbn [py_getitem py_get].
    destruct (lookup "path" kvs) as [path |] eqn:E.
    + split; [intros [k [[<- | []] Hk]]; rewrite E in Hk; discriminate Hk |].
      no_key_error. inversion H. subst.
      match goal with
      | E' : read_file_cmd _ _ = Raise _ |- _ =>
          destruct (read_file_cmd_raises_type_error _ _ _ E') as [msg Hmsg];
          discriminate Hmsg
      end.
    + split; [intros _; exists "path"; reflexivity |].
      intros _. exists "path". split; [left; reflexivity | exact E].
  - change (handle_tool_call_try (JStr "write_file") (JDict kvs))
      with (tool_write_file (JDict kvs)).
    change (required_args "write_file") with ["path"; "content"].
    unfold tool_write_file. cbn [py_getitem py_get].
    destruct (lookup "path" kvs) as [path |] eqn:E.
    + destruct (lookup "content" kvs) as [content |] eqn:Ec.
      * split; [intros [k [[<- | [<- | []]] Hk]]; [rewrite E in Hk | rewrite Ec in Hk];
                discriminate Hk |].
        no_key_error. inversion H. subst.
        match goal with
        | E' : py_replace _ _ _ = Raise _ |- _ =>
            destruct (py_replace_raises_attribute_error _ _ _ _ E') as [ty [attr Hty]];
            discriminate Hty
        end.
      * split; [intros _; exists "content"; reflexivity |].
        intros _. exists "content". split; [right; left; reflexivity | exact Ec].
    + split; [intros _; exists "path"; reflexivity |].
      intros _. exists "path". split; [left; reflexivity | exact E].
  - change (handle_tool_call_try (JStr "get_system_info") (JDict kvs))
      with tool_get_system_info.
    change (required_args "get_system_info") with (@nil string).
    unfold tool_get_system_info.
    split; [intros [k [[] _]] | no_key_error].
Qed.

(** X7 at [write_file] without [content]. *)
Lemma missing_content_example :
  handle_tool_call (JStr "write_file") (JDict [("path", JStr "/tmp/x")]) remote_down =
  ([], Ret (error_result (JStr "Error: 'content'"))).
Proof.
  assert (Hs : In "write_file" tool_names) by (simpl; auto 10).
  exact (proj2 (missing_required_argument "write_file" [("path", JStr "/tmp/x")]
                  remote_down Hs) "content" eq_refl).
Defined.

(* ================================================================= *)
(** ** Bodies the route does not take as requests *)

Lemma falsy_values (data : json) :
  truthy data = false <->
  data = JNull \/ data = JBool false \/ data = JInt 0
  \/ (exists f, data = JFloat f /\ sf_is_zero (fl_val f) = true)
  \/ data = JStr "" \/ data = JList [] \/ data = JDict [].
Proof.
  split.
  - destruct data as [| b | z | f | s | xs | kvs]; simpl; intros H.
    + auto.
    + destruct b; [discriminate H | auto].
    + apply negb_false_iff, Z.eqb_eq in H. subst. auto.
    + apply negb_false_iff in H. right; right; right; left. eauto.
    + apply negb_false_iff, String.eqb_eq in H. subst. auto 10.
    + destruct xs; [auto 10 | discriminate H].
    + destruct kvs; [auto 10 | discriminate H].
  - intros [-> | [-> | [-> | [[f [-> Hf]] | [-> | [-> | ->]]]]]]; simpl; trivial.
    now rewrite Hf.
Qed.

(** X8. A body that is valid JSON but falsy in Python is refused as a parse
    error: when [request.get_json()] returns null, false, 0, 0.0, an empty
    string, an empty list or an empty mapping (and only then), the route
    answers status 400 with id null, code -32700 and ["Parse error"], and
    does not look at the body any further or contact the remote. *)
Theorem falsy_body_is_a_parse_error (data : json) (w : remote)
    (Hfalsy : data = JNull \/ data = JBool false \/ data = JInt 0
              \/ (exists f, data = JFloat f /\ sf_is_zero (fl_val f) = true)
              \/ data = JStr "" \/ data = JList [] \/ data = JDict []) :
  mcp_handler_on (Ret data) w =
    ([], Ret (MkResponse (rpc_error JNull (-32700) "Parse error") 400))
  /\ (forall data' log response,
        mcp_handler_on (Ret data') w = (log, Ret response) ->
        status response = 400%Z ->
        data' = JNull \/ data' = JBool false \/ data' = JInt 0
        \/ (exists f, data' = JFloat f /\ sf_is_zero (fl_val f) = true)
        \/ data' = JStr "" \/ data' = JList [] \/ data' = JDict []).
Proof.
  split.
  - apply mcp_handler_on_falsy. now apply falsy_values.
  - intros data' log response H Hs. apply falsy_values.
    destruct (truthy data') eqn:Et; [| reflexivity].
    rewrite (mcp_handler_on_truthy data' w Et) in H.
    destruct (snd (process_mcp_message data' w)); inversion H; subst; discriminate Hs.
Qed.

(** X8 at the empty object. *)
Lemma empty_object_example :
  mcp_handler (MkRequest true (Some (JDict []))) remote_down =
  ([], Ret (MkResponse (rpc_error JNull (-32700) "Parse error") 400)).
Proof.
  exact (proj1 (falsy_body_is_a_parse_error (JDict []) remote_down
                  (or_intror (or_intror (or_intror (or_intror (or_intror
                     (or_intror eq_refl)))))))).
Defined.

(** X9. A body that parses to something truthy that is not a mapping (a
    JSON-RPC batch array, a string, a number, true) is answered on the
    internal-fault path: status 500, id 1, code -32603 and the text of the
    [AttributeError] that [data.get] raises, with no request to the remote. *)
Theorem non_mapping_body_is_an_internal_fault (data : json) (w : remote)
    (Htruthy : truthy data = true)
    (Hnot : forall kvs, data <> JDict kvs) :
  mcp_handler_on (Ret data) w =
  ([], Ret (MkResponse
              (rpc_error (JInt 1) (-32603)
                 ("'" ++ type_name data ++ "' object has no attribute 'get'"))
              500)).
Proof.
  rewrite (mcp_handler_on_truthy data w Htruthy).
  destruct data as [| | | | | | kvs]; try reflexivity. now destruct (Hnot kvs).
Qed.

(** X9 at a batch of one request. *)
Lemma batch_request_example :
  mcp_handler
    (MkRequest true
       (Some (JList [JDict [("jsonrpc", JStr "2.0"); ("id", JInt 1);
                            ("method", JStr "tools/list")]])))
    remote_down =
  ([], Ret (MkResponse
              (rpc_error (JInt 1) (-32603) "'list' object has no attribute 'get'") 500)).
Proof.
  apply (non_mapping_body_is_an_internal_fault
           (JList [JDict [("jsonrpc", JStr "2.0"); ("id", JInt 1);
                          ("method", JStr "tools/list")]]) remote_down eq_refl).
  intros kvs H. discriminate H.
Defined.

(** X10. [params] is read only for [tools/call].  With any other method the
    answer is the same whatever [params] holds; with [tools/call] and a
    [params] that is present but not a mapping (null, a list of positional
    parameters, a string) the request ends on the internal-fault path:
    status 500, id 1 whatever the request's id, code -32603, and no request
    to the remote. *)
Theorem params_read_only_by_tools_call
    (kvs : list (string * json)) (w : remote) :
  let method := dict_get kvs "method" (JStr "") in
  let params := dict_get kvs "params" (JDict []) in
  (method <> JStr "tools/call" ->
     forall kvs' w',
       dict_get kvs' "method" (JStr "") = method ->
       dict_get kvs' "id" (JInt 1) = dict_get kvs "id" (JInt 1) ->
       process_mcp_message (JDict kvs') w' = process_mcp_message (JDict kvs) w)
  /\ (method = JStr "tools/call" ->
      (forall pkvs, params <> JDict pkvs) ->
      mcp_handler_on (Ret (JDict kvs)) w =
      ([], Ret (MkResponse
                  (rpc_error (JInt 1) (-32603)
                     ("'" ++ type_name params ++ "' object has no attribute 'get'"))
                  500))).
Proof.
  intros method params. split.
  - intros Hm kvs' w' Hm' Hid.
    assert (E : py_eq_str method "tools/call" = false).
    { destruct (py_eq_str method "tools/call") eqn:E; [| reflexivity].
      apply py_eq_str_true in E. contradiction. }
    rewrite (process_other_method kvs w E).
    assert (E' : py_eq_str (dict_get kvs' "method" (JStr "")) "tools/call" = false)
      by now rewrite Hm'.
    rewrite (process_other_method kvs' w' E'). cbv zeta. now rewrite Hm', Hid.
  - intros Hm Hp.
    rewrite mcp_handler_on_truthy
      by (apply (dict_with_method_truthy kvs "tools/call" Hm); discriminate).
    now rewrite (process_tools_call_bad_params kvs w Hm Hp).
Qed.

(* ================================================================= *)
(** ** The escaping of [write_file] *)

Lemma string_app_nil_r (s : string) : s ++ "" = s.
Proof. induction s as [| c s IH]; [reflexivity | simpl; now rewrite IH]. Qed.

Lemma string_app_assoc (a b c : string) : (a ++ b) ++ c = a ++ (b ++ c).
Proof. induction a as [| x a IH]; [reflexivity | simpl; now rewrite IH]. Qed.

Lemma sh_word_escaped (content rest : string) :
  sh_word true (escape_single_quotes content ++ rest) =
  option_map (append content) (sh_word true rest).
Proof.
  induction content as [| c content IH].
  - simpl. destruct (sh_word true rest); reflexivity.
  - unfold escape_single_quotes. cbn [concat_map].
    fold (escape_single_quotes content). rewrite string_app_assoc.
    destruct (Ascii.eqb c squote) eqn:Ec.
    + apply Ascii.eqb_eq in Ec. subst c.
      change (sh_word true ("'\''" ++ escape_single_quotes content ++ rest))
        with (option_map (String squote)
                (sh_word true (escape_single_quotes content ++ rest))).
      rewrite IH. destruct (sh_word true rest); reflexivity.
    + cbn [str1 append sh_word]. rewrite Ec, IH.
      destruct (sh_word true rest); reflexivity.
Qed.

Lemma escape_length (content : string) :
  String.length (escape_single_quotes content) =
  String.length content + 3 * count_char squote content.
Proof.
  induction content as [| c content IH]; [reflexivity |].
  unfold escape_single_quotes. cbn [concat_map count_char String.length].
  fold (escape_single_quotes content).
  rewrite (Ascii.eqb_sym squote c).
  destruct (Ascii.eqb c squote); cbn [str1 append String.length]; rewrite IH; lia.
Qed.

Lemma escape_without_quotes (content : string) :
  count_char squote content = 0 -> escape_single_quotes content = content.
Proof.
  induction content as [| c content IH]; [reflexivity |].
  unfold escape_single_quotes. cbn [concat_map count_char].
  fold (escape_single_quotes content).
  rewrite (Ascii.eqb_sym squote c).
  destruct (Ascii.eqb c squote); [discriminate |].
  intros H. simpl in H. cbn [str1 append]. now rewrite (IH H).
Qed.

(** X11. The escaping [write_file] applies to [content] is sound for the
    shell's single-quote rule: the word [echo] receives, read the way a POSIX
    shell reads single-quoted text with backslash-escaped quotes between the
    parts, is [content] itself, character for character, for every
    [content].  The escaping adds three characters per single quote and
    leaves a [content] without single quotes unchanged. *)
Theorem escaped_content_reads_back (content : string) :
  sh_word false ("'" ++ str_replace content "'" "'\''" ++ "'") = Some content
  /\ String.length (str_replace content "'" "'\''") =
     String.length content + 3 * count_char squote content
  /\ (count_char squote content = 0 -> str_replace content "'" "'\''" = content).
Proof.
  rewrite replace_escapes_single_quotes. split; [| split].
  - change (sh_word false ("'" ++ escape_single_quotes content ++ "'"))
      with (sh_word true (escape_single_quotes content ++ "'")).
    rewrite sh_word_escaped. simpl. now rewrite string_app_nil_r.
  - apply escape_length.
  - apply escape_without_quotes.
Qed.


Lemma sh_word_consumes (n : nat) :
  forall s q r,
    String.length s <= n ->
    sh_word q s = Some r ->
    String.length r + 1 <= String.length s \/ (q = false /\ s = "" /\ r = "").
Proof.
  induction n as [| n IH]; intros s q r Hn H.
  - destruct s; [| simpl in Hn; lia]. destruct q; [discriminate H |].
    inversion H. auto.
  - destruct s as [| c rest].
    + destruct q; [discriminate H |]. inversion H. auto.
    + left. simpl in Hn. cbn [sh_word] in H. destruct q.
      * destruct (Ascii.eqb c squote).
        -- destruct (IH rest false r ltac:(lia) H) as [Hb | [_ [-> ->]]]; simpl; lia.
        -- destruct (sh_word true rest) as [r' |] eqn:E; [| discriminate H].
           inversion H. subst r.
           destruct (IH rest true r' ltac:(lia) E) as [Hb | [Hq _]];
             [simpl; lia | discriminate Hq].
      * destruct (Ascii.eqb c squote).
        -- destruct (IH rest true r ltac:(lia) H) as [Hb | [Hq _]];
             [simpl; lia | discriminate Hq].
        -- destruct (Ascii.eqb c backslash); [| discriminate H].
           destruct rest as [| d rest']; [discriminate H |]. simpl in Hn.
           destruct (Ascii.eqb d (ascii_of_nat 10)).
           ++ destruct (IH rest' false r ltac:(lia) H) as [Hb | [_ [-> ->]]]; simpl; lia.
           ++ destruct (sh_word false rest') as [r' |] eqn:E; [| discriminate H].
              inversion H. subst r.
              destruct (IH rest' false r' ltac:(lia) E) as [Hb | [_ [-> ->]]]; simpl; lia.
Qed.

Lemma sh_word_after_quote (s r : string) :
  sh_word true s = Some r ->
  2 <= count_char squote s ->
  String.length r + 2 <= String.length s.
Proof.
  revert r. induction s as [| c rest IH]; intros r H Hc; [discriminate H |].
  cbn [sh_word] in H. cbn [count_char] in Hc. rewrite (Ascii.eqb_sym squote c) in Hc.
  destruct (Ascii.eqb c squote).
  - destruct (sh_word_consumes (String.length rest) rest false r (le_n _) H)
      as [Hb | [_ [-> _]]]; [simpl; lia | simpl in Hc; lia].
  - destruct (sh_word true rest) as [r' |] eqn:E; [| discriminate H].
    inversion H. subst r. specialize (IH r' eq_refl ltac:(simpl in Hc; lia)).
    simpl. lia.
Qed.

Lemma count_char_app (c : ascii) (a b : string) :
  count_char c (a ++ b) = count_char c a + count_char c b.
Proof. induction a as [| x a IH]; [reflexivity | simpl; rewrite IH; lia]. Qed.

Lemma string_length_app (a b : string) :
  String.length (a ++ b) = String.length a + String.length b.
Proof. induction a as [| x a IH]; [reflexivity | simpl; now rewrite IH]. Qed.

Lemma read_file_cmd_shape (path : string) (lines : json) (cmd : string) :
  read_file_cmd (JStr path) lines = Ret cmd ->
  cmd = "cat " ++ ("'" ++ path ++ "'")
  \/ cmd = "head -n " ++ py_str lines ++ " " ++ ("'" ++ path ++ "'")
  \/ exists n, py_abs lines = Ret n
               /\ cmd = "tail -n " ++ py_str n ++ " " ++ ("'" ++ path ++ "'").
Proof.
  unfold read_file_cmd. destruct (truthy lines).
  - destruct (py_lt_zero lines) as [[|] | e]; [| | discriminate].
    + destruct (py_abs lines) as [n | e]; [| discriminate].
      intros H. inversion H. right; right. exists n. split; reflexivity.
    + intros H. inversion H. right; left. reflexivity.
  - intros H. inversion H. left. reflexivity.
Qed.

Lemma read_file_no_command (kvs : list (string * json)) (path : json) (e : exn)
    (w : remote) :
  lookup "path" kvs = Some path ->
  read_file_cmd path (dict_get kvs "lines" JNull) = Raise e ->
  fst (handle_tool_call (JStr "read_file") (JDict kvs) w) = [].
Proof.
  intros Hpath Hcmd. unfold handle_tool_call. rewrite catch_returns.
  change (handle_tool_call_try (JStr "read_file") (JDict kvs))
    with (tool_read_file (JDict kvs)).
  unfold tool_read_file. cbn [py_getitem py_get].
  rewrite Hpath, !bind_lift_ret, Hcmd, bind_lift_raise. reflexivity.
Qed.

(** X12. [path] is put between single quotes as it is, not escaped.  Every
    command [read_file] sends ([cat], [head -n], [tail -n]) and every command
    [write_file] sends ([echo ... >] and [echo ... >>]) ends in the word
    ['<path>'], and that word, read the way a POSIX shell reads single-quoted
    text, is the given path exactly when the path holds no single quote.  A
    path with a single quote ends the quoting early, so the shell sees
    something other than that path. *)
Theorem quoted_path_reads_back_iff_no_quote (path : string) :
  let word := "'" ++ path ++ "'" in
  let sent cmd := [MkCall "/run" "POST" (Some (JDict [("command", JStr cmd)]))] in
  (forall kvs w,
      lookup "path" kvs = Some (JStr path) ->
      let log := fst (handle_tool_call (JStr "read_file") (JDict kvs) w) in
      let lines := dict_get kvs "lines" JNull in
      log = []
      \/ log = sent ("cat " ++ word)
      \/ log = sent ("head -n " ++ py_str lines ++ " " ++ word)
      \/ exists n, py_abs lines = Ret n /\ log = sent ("tail -n " ++ py_str n ++ " " ++ word))
  /\ (forall kvs w n,
        lookup "path" kvs = Some (JStr path) ->
        lookup "lines" kvs = Some (JInt n) ->
        let log := fst (handle_tool_call (JStr "read_file") (JDict kvs) w) in
        ((0 < n)%Z -> log = sent ("head -n " ++ str_int n ++ " " ++ word))
        /\ ((n < 0)%Z -> log = sent ("tail -n " ++ str_int (Z.abs n) ++ " " ++ word))
        /\ (n = 0%Z -> log = sent ("cat " ++ word)))
  /\ (forall kvs content w,
        lookup "path" kvs = Some (JStr path) ->
        lookup "content" kvs = Some (JStr content) ->
        let log := fst (handle_tool_call (JStr "write_file") (JDict kvs) w) in
        log = sent ("echo '" ++ escape_single_quotes content ++ "' > " ++ word)
        \/ log = sent ("echo '" ++ escape_single_quotes content ++ "' >> " ++ word))
  /\ (sh_word false word = Some path <-> count_char squote path = 0).
Proof.
  intros word sent. split; [| split; [| split]].
  - intros kvs w Hpath log lines. subst log.
    destruct (read_file_cmd (JStr path) lines) as [cmd | e] eqn:E.
    + rewrite (read_file_run kvs (JStr path) cmd w Hpath E). cbn [fst].
      destruct (read_file_cmd_shape path lines cmd E) as [-> | [-> | [n [Hn ->]]]].
      * right; left. reflexivity.
      * right; right; left. reflexivity.
      * right; right; right. exists n. split; [exact Hn | reflexivity].
    + left. exact (read_file_no_command kvs (JStr path) e w Hpath E).
  - intros kvs w n Hpath Hlines log. subst log. repeat split.
    + intros Hn. erewrite read_file_run; [reflexivity | exact Hpath |].
      unfold dict_get. rewrite Hlines. destruct n; try lia. reflexivity.
    + intros Hn. erewrite read_file_run; [reflexivity | exact Hpath |].
      unfold dict_get. rewrite Hlines. destruct n; try lia. reflexivity.
    + intros ->. erewrite read_file_run; [reflexivity | exact Hpath |].
      unfold dict_get. rewrite Hlines. reflexivity.
  - intros kvs content w Hpath Hcontent log. subst log.
    rewrite (write_file_run kvs path content w Hpath Hcontent). cbn [fst].
    destruct (truthy (dict_get kvs "append" (JBool false))).
    + right. reflexivity.
    + left. reflexivity.
  - subst word.
    change (sh_word false ("'" ++ path ++ "'")) with (sh_word true (path ++ "'")).
    split.
    + intros H. destruct (count_char squote path) as [| n] eqn:E; [reflexivity |].
      pose proof (sh_word_after_quote (path ++ "'") path H) as Hb.
      rewrite count_char_app, string_length_app, E in Hb. simpl in Hb. lia.
    + intros H. rewrite <- (escape_without_quotes path H) at 1.
      rewrite sh_word_escaped. simpl. now rewrite string_app_nil_r.
Qed.

(* ================================================================= *)
(** ** Arguments of the wrong type *)

(** X13. [read_file] with a [lines] that is not a usable count.  Every falsy
    value (null, false, 0, 0.0, an empty string, list or mapping) is taken as
    no [lines] at all and gives [cat '<path>']; [true] gives
    [head -n True '<path>']; a non-empty string, list or mapping cannot be
    compared with 0, so the call answers [isError] with Python's [TypeError]
    message and sends nothing to the remote. *)
Theorem read_file_lines_of_other_types
    (kvs : list (string * json)) (path : string) (lines : json) (w : remote)
    (Hpath : lookup "path" kvs = Some (JStr path))
    (Hlines : lookup "lines" kvs = Some lines) :
  let run := handle_tool_call (JStr "read_file") (JDict kvs) w in
  let sent cmd := [MkCall "/run" "POST" (Some (JDict [("command", JStr cmd)]))] in
  (truthy lines = false -> fst run = sent ("cat '" ++ path ++ "'"))
  /\ (lines = JBool true -> fst run = sent ("head -n True '" ++ path ++ "'"))
  /\ (truthy lines = true ->
      match lines with JStr _ | JList _ | JDict _ => True | _ => False end ->
      run = ([], Ret (error_result
                        (JStr ("Error: '<' not supported between instances of '"
                                 ++ type_name lines ++ "' and 'int'"))))).
Proof.
  intros run sent. subst run. repeat split.
  - intros Hf. erewrite read_file_run; [reflexivity | exact Hpath |].
    unfold dict_get. rewrite Hlines. unfold read_file_cmd. now rewrite Hf.
  - intros ->. erewrite read_file_run; [reflexivity | exact Hpath |].
    unfold dict_get. now rewrite Hlines.
  - intros Ht Hty. unfold handle_tool_call. rewrite catch_returns.
    change (handle_tool_call_try (JStr "read_file") (JDict kvs))
      with (tool_read_file (JDict kvs)).
    unfold tool_read_file. cbn [py_getitem py_get].
    rewrite Hpath. unfold dict_get. rewrite Hlines, !bind_lift_ret.
    unfold read_file_cmd. rewrite Ht.
    destruct lines; try contradiction; reflexivity.
Qed.

(** X13 at [lines] given as the string 5. *)
Lemma read_file_string_lines_example :
  handle_tool_call (JStr "read_file")
    (JDict [("path", JStr "/tmp/x"); ("lines", JStr "5")]) remote_down =
  ([], Ret (error_result
              (JStr "Error: '<' not supported between instances of 'str' and 'int'"))).
Proof.
  exact (proj2 (proj2 (read_file_lines_of_other_types
                         [("path", JStr "/tmp/x"); ("lines", JStr "5")]
                         "/tmp/x" (JStr "5") remote_down eq_refl eq_refl))
           eq_refl I).
Defined.

(** X14. [write_file] with a [content] that is not a string (a number, a
    list, a mapping, null, a boolean): [content.replace] raises, so the call
    answers [isError] with the [AttributeError] text and never sends a
    command, whatever [path] and [append] hold. *)
Theorem write_file_content_must_be_a_string
    (kvs : list (string * json)) (path content : json) (w : remote)
    (Hpath : lookup "path" kvs = Some path)
    (Hcontent : lookup "content" kvs = Some content)
    (Hnot : forall s, content <> JStr s) :
  handle_tool_call (JStr "write_file") (JDict kvs) w =
  ([], Ret (error_result
              (JStr ("Error: '" ++ type_name content
                       ++ "' object has no attribute 'replace'")))).
Proof.
  unfold handle_tool_call. rewrite catch_returns.
  change (handle_tool_call_try (JStr "write_file") (JDict kvs))
    with (tool_write_file (JDict kvs)).
  unfold tool_write_file. cbn [py_getitem py_get].
  rewrite Hpath, Hcontent, !bind_lift_ret.
  destruct content; try reflexivity. now destruct (Hnot s).
Qed.

(** X14 at a number for [content]. *)
Lemma write_file_number_content_example :
  handle_tool_call (JStr "write_file")
    (JDict [("path", JStr "/tmp/x"); ("content", JInt 42)]) remote_down =
  ([], Ret (error_result (JStr "Error: 'int' object has no attribute 'replace'"))).
Proof.
  apply (write_file_content_must_be_a_string
           [("path", JStr "/tmp/x"); ("content", JInt 42)]
           (JStr "/tmp/x") (JInt 42) remote_down eq_refl eq_refl).
  intros s H. discriminate H.
Defined.
